(** * Shared-memory monitor of Cyclone DDS (src/core/ddsc/src/shm_monitor.c)

    A shallow embedding of the monitor's control operations, of the two
    listener callbacks and of the reception pipeline, together with the
    properties of the design document that can be settled on this code.

    The iceoryx binding (listener, user trigger, subscriber), the DDSI
    stack (entity index, keyed-instance map, history cache, serdata) and
    the header shm__monitor.h are outside the file.  What the file uses of
    them appears here as small explicit models that follow the design
    document; their comments start with "Modelled from the spec". *)

From Stdlib Require Import ZArith List Bool String Lia Arith.
Import ListNotations.
Local Open Scope Z_scope.

Set Implicit Arguments.

(* ------------------------------------------------------------------ *)
(** ** Machine integers *)

(** The C type of a counter: signedness and width.  The declaration of
    [m_number_of_attached_readers] lives in shm__monitor.h, which is not
    part of the translated sources, so the operations below take the type
    of the count as a parameter. *)
Record c_int_type := { ct_signed : bool; ct_bits : positive }.

Definition uint32_t := {| ct_signed := false; ct_bits := 32 |}.
Definition int32_t := {| ct_signed := true; ct_bits := 32 |}.

Definition ct_modulus (ct : c_int_type) : Z := 2 ^ Z.pos (ct_bits ct).
Definition ct_min (ct : c_int_type) : Z :=
  if ct_signed ct then - 2 ^ (Z.pos (ct_bits ct) - 1) else 0.
Definition ct_max (ct : c_int_type) : Z := ct_min ct + ct_modulus ct - 1.

(** Reduction of a mathematical integer into the range of the type:
    the wrap-around of an unsigned type, and for a signed type what two's
    complement hardware does where C leaves the overflow undefined. *)
Definition ct_wrap (ct : c_int_type) (z : Z) : Z :=
  ct_min ct + (z - ct_min ct) mod ct_modulus ct.

Definition ct_in_range (ct : c_int_type) (z : Z) : Prop :=
  ct_min ct <= z <= ct_max ct.

(* ------------------------------------------------------------------ *)
(** ** Data model *)

(** Modelled from the spec: [enum shm_monitor_states] of shm__monitor.h,
    the run state of the monitor (section 3: Running, NotRunning). *)
Inductive shm_monitor_states := SHM_MONITOR_NOT_RUNNING | SHM_MONITOR_RUNNING.

Definition shm_monitor_states_eqb (a b : shm_monitor_states) : bool :=
  match a, b with
  | SHM_MONITOR_NOT_RUNNING, SHM_MONITOR_NOT_RUNNING => true
  | SHM_MONITOR_RUNNING, SHM_MONITOR_RUNNING => true
  | _, _ => false
  end.

(** Modelled from the spec: the two [dds_return_t] codes the file
    produces (section 6: Ok, ResourceExhausted). *)
Inductive dds_return_t := DDS_RETCODE_OK | DDS_RETCODE_OUT_OF_RESOURCES.

(** Modelled from the spec: results of
    [iox_listener_attach_subscriber_event] (section 4.1): the listener
    accepts the registration, or cannot accept another one. *)
Inductive iox_ListenerResult :=
| ListenerResult_SUCCESS
| ListenerResult_LISTENER_FULL.

Definition ListenerResult_eqb (a b : iox_ListenerResult) : bool :=
  match a, b with
  | ListenerResult_SUCCESS, ListenerResult_SUCCESS => true
  | ListenerResult_LISTENER_FULL, ListenerResult_LISTENER_FULL => true
  | _, _ => false
  end.

(** A subscriber handle [iox_sub_t]; every reader has its own. *)
Definition iox_sub_t := nat.

(** A function pointer [void ( * )(void * )] and its [void *] argument are
    opaque addresses; [None] is the null function pointer. *)
Definition fn_addr := nat.
Definition arg_addr := nat.

(** Modelled from the spec: the state of a [ddsrt_mutex_t], a
    mutual-exclusion lock. *)
Inductive ddsrt_mutex_t := MutexUninit | MutexUnlocked | MutexLocked | MutexDestroyed.

(** Modelled from the spec: the Event Listener behind [iox_listener_t]
    (section 4.2), a multiplexer of fixed capacity over the registered
    event sources: whether it is alive, its capacity, whether the wake-up
    trigger is attached and which subscribers have a HAS_DATA
    registration. *)
Record iox_listener := {
  l_alive : bool;
  l_capacity : nat;
  l_user_trigger : bool;
  l_subscribers : list iox_sub_t
}.

(** Modelled from the spec: [iox_user_trigger_storage_extension_t] of
    shm__monitor.h, the Wakeup Trigger of section 3: the trigger itself
    (the number of firings the listener thread has not yet observed; the
    listener delivers the event whenever it is fired), followed by the
    payload slot.  The [monitor] back pointer of the C struct is set once
    by [shm_monitor_init] to the enclosing monitor; in this embedding the
    storage is a field of that monitor, so the pointer is the containment
    relation. *)
Record iox_user_trigger_storage_extension_t := {
  storage : nat;
  call : option fn_addr;
  arg : arg_addr
}.

(** Modelled from the spec: [struct shm_monitor] of shm__monitor.h with
    the fields the file uses (section 3: the lock, the Event Listener, the
    Wakeup Trigger, the count of attached readers and the run state). *)
Record shm_monitor_t := {
  m_lock : ddsrt_mutex_t;
  m_listener : iox_listener;
  m_wakeup_trigger_storage : iox_user_trigger_storage_extension_t;
  m_number_of_attached_readers : Z;
  m_state : shm_monitor_states
}.

(** Modelled from the spec: a writer identity ([ddsi_guid_t], a
    fixed-size GUID), compared as a whole. *)
Definition ddsi_guid_t := Z.

(** Modelled from the spec: [iceoryx_header_t], the prefix of every
    chunk (section 6): the identity of the writer, a 64-bit time stamp and
    the data-kind tag. *)
Record iceoryx_header_t := {
  guid : ddsi_guid_t;
  tstamp : Z;
  data_kind : nat
}.

(** Modelled from the spec: a chunk handed out by the subscriber
    (section 3): its address and the header it starts with. *)
Record chunk := {
  chunk_addr : nat;
  ice_hdr : iceoryx_header_t
}.

(** Modelled from the spec: what the pipeline reads of a
    [struct proxy_writer], the writer context: the identity in [pwr->e]
    and the QoS in [pwr->c.xqos]. *)
Record proxy_writer := {
  e_guid : ddsi_guid_t;
  c_xqos : nat
}.

(** A [struct ddsi_sertype] is referred to by its address. *)
Definition ddsi_sertype := nat.

(** Modelled from the spec: what the pipeline touches of a
    [struct ddsi_serdata], the sample (section 3); [sd_chunk] is the chunk
    the sample was built on and owns. *)
Record ddsi_serdata := {
  sd_type : ddsi_sertype;
  sd_kind : nat;
  sd_chunk : chunk;
  timestamp : Z;
  statusinfo : Z
}.

(** A [struct ddsi_tkmap_instance] is referred to by its address. *)
Definition ddsi_tkmap_instance := nat.

(** Modelled from the spec: [struct ddsi_writer_info], the writer-info
    snapshot built by [ddsi_make_writer_info]. *)
Record ddsi_writer_info := {
  wi_guid : ddsi_guid_t;
  wi_xqos : nat;
  wi_statusinfo : Z
}.

(** Modelled from the spec: the part of [struct ddsi_domaingv] reached
    through [rd->m_rd->e.gv]: the entity index and the keyed-instance map,
    each as the lookup the pipeline performs on it (section 6: a writer
    context or "not found"; an instance token or a failure). *)
Record ddsi_domaingv := {
  entity_index : ddsi_guid_t -> option proxy_writer;
  m_tkmap : ddsi_serdata -> option ddsi_tkmap_instance
}.

(** One entry of the history cache: the triple given to
    [ddsi_rhc_store]. *)
Definition rhc_entry : Type := ddsi_writer_info * ddsi_serdata * ddsi_tkmap_instance.

(** Modelled from the spec: the History Cache as its store operation
    (sections 2, 4.3 step 7 and 7): given the content of the cache and a
    triple, the result it reports and the content it leaves.  The cache
    stores under its own retention and ordering policy and may refuse;
    nothing is assumed about it. *)
Definition rhc_store_policy : Type :=
  list rhc_entry -> rhc_entry -> bool * list rhc_entry.

(** Modelled from the spec: the fields of [struct dds_reader] the file
    reads: the subscriber handle, [m_topic->m_stype], [m_rd->e.gv] and
    the history cache [m_rd->rhc] with its store operation. *)
Record dds_reader := {
  m_iox_sub : iox_sub_t;
  m_stype : ddsi_sertype;
  e_gv : ddsi_domaingv;
  m_rhc : rhc_store_policy
}.

(** Modelled from the spec: results of [iox_sub_take_chunk] (section 6):
    the chunk source either hands out a chunk or reports that it has
    none. *)
Inductive iox_ChunkReceiveResult :=
| ChunkReceiveResult_NO_CHUNK_AVAILABLE
| ChunkReceiveResult_SUCCESS.

Definition ChunkReceiveResult_eqb (a b : iox_ChunkReceiveResult) : bool :=
  match a, b with
  | ChunkReceiveResult_NO_CHUNK_AVAILABLE, ChunkReceiveResult_NO_CHUNK_AVAILABLE => true
  | ChunkReceiveResult_SUCCESS, ChunkReceiveResult_SUCCESS => true
  | _, _ => false
  end.

(** Observable effects, in program order.  The first group is produced
    by the control operations and the wake-up callback, the second by the
    reception pipeline; [EvLog] is shared.  [EvMutexLock], [EvMutexUnlock]
    and [EvReleaseChunk] stand for [ddsrt_mutex_lock], [ddsrt_mutex_unlock]
    and [iox_sub_release_chunk]. *)
Inductive event :=
| EvMutexInit
| EvMutexLock
| EvMutexUnlock
| EvMutexDestroy
| EvListenerInit
| EvListenerDeinit
| EvUserTriggerInit
| EvAttachUserTrigger
| EvTrigger
| EvAttachSubscriber (sub : iox_sub_t) (res : iox_ListenerResult)
| EvDetachSubscriber (sub : iox_sub_t)
| EvWriteState (s : shm_monitor_states)
| EvWriteCount (n : Z)
| EvWritePayload (f : option fn_addr) (a : arg_addr)
| EvLog (msg : string)
| EvCall (f : fn_addr) (a : arg_addr)
| EvThreadAwake
| EvThreadAsleep
| EvShmMutexLock
| EvShmMutexUnlock
| EvTakeChunk (res : iox_ChunkReceiveResult) (c : option chunk)
| EvSerdataFromIox (c : chunk)
| EvTkmapLookupInstanceRef (d : ddsi_serdata) (tk : option ddsi_tkmap_instance)
| EvRhcStore (wrinfo : ddsi_writer_info) (d : ddsi_serdata) (tk : ddsi_tkmap_instance)
| EvTkmapInstanceUnref (tk : ddsi_tkmap_instance)
| EvSerdataUnref (d : ddsi_serdata)
| EvReleaseChunk (c : chunk).

(** The monitor together with the effects performed on it so far. *)
Record world := {
  monitor : shm_monitor_t;
  trace : list event
}.

(* ------------------------------------------------------------------ *)
(** ** A state monad over [world] *)

Definition M (A : Type) : Type := world -> A * world.

Definition ret {A} (a : A) : M A := fun w => (a, w).
Definition bind {A B} (m : M A) (k : A -> M B) : M B :=
  fun w => let (a, w') := m w in k a w'.

Declare Scope monitor_scope.
Delimit Scope monitor_scope with mon.
Notation "x <- m ;; k" := (bind m (fun x => k))
  (at level 61, m at next level, right associativity) : monitor_scope.
Notation "m ;; k" := (bind m (fun _ => k))
  (at level 61, right associativity) : monitor_scope.
Local Open Scope monitor_scope.

Definition emit (e : event) : M unit :=
  fun w => (tt, {| monitor := monitor w; trace := trace w ++ [e] |}).

Definition get_monitor : M shm_monitor_t := fun w => (monitor w, w).

Definition put_monitor (m : shm_monitor_t) : M unit :=
  fun w => (tt, {| monitor := m; trace := trace w |}).

Definition exec {A} (m : M A) (w : world) : world := snd (m w).
Definition eval {A} (m : M A) (w : world) : A := fst (m w).

(** Field updates of the monitor. *)
Definition with_lock (l : ddsrt_mutex_t) (m : shm_monitor_t) : shm_monitor_t :=
  {| m_lock := l; m_listener := m_listener m;
     m_wakeup_trigger_storage := m_wakeup_trigger_storage m;
     m_number_of_attached_readers := m_number_of_attached_readers m;
     m_state := m_state m |}.

Definition with_listener (l : iox_listener) (m : shm_monitor_t) : shm_monitor_t :=
  {| m_lock := m_lock m; m_listener := l;
     m_wakeup_trigger_storage := m_wakeup_trigger_storage m;
     m_number_of_attached_readers := m_number_of_attached_readers m;
     m_state := m_state m |}.

Definition with_trigger (t : iox_user_trigger_storage_extension_t)
  (m : shm_monitor_t) : shm_monitor_t :=
  {| m_lock := m_lock m; m_listener := m_listener m;
     m_wakeup_trigger_storage := t;
     m_number_of_attached_readers := m_number_of_attached_readers m;
     m_state := m_state m |}.

Definition with_count (n : Z) (m : shm_monitor_t) : shm_monitor_t :=
  {| m_lock := m_lock m; m_listener := m_listener m;
     m_wakeup_trigger_storage := m_wakeup_trigger_storage m;
     m_number_of_attached_readers := n;
     m_state := m_state m |}.

Definition with_state (s : shm_monitor_states) (m : shm_monitor_t) : shm_monitor_t :=
  {| m_lock := m_lock m; m_listener := m_listener m;
     m_wakeup_trigger_storage := m_wakeup_trigger_storage m;
     m_number_of_attached_readers := m_number_of_attached_readers m;
     m_state := s |}.

(* ------------------------------------------------------------------ *)
(** ** The primitives the file calls *)

(** Modelled from the spec: [ddsrt_mutex_init], [ddsrt_mutex_lock],
    [ddsrt_mutex_unlock] and [ddsrt_mutex_destroy] on [monitor->m_lock]. *)
Definition ddsrt_mutex_init : M unit :=
  m <- get_monitor ;; put_monitor (with_lock MutexUnlocked m) ;; emit EvMutexInit.

Definition ddsrt_mutex_lock : M unit :=
  m <- get_monitor ;; put_monitor (with_lock MutexLocked m) ;; emit EvMutexLock.

Definition ddsrt_mutex_unlock : M unit :=
  m <- get_monitor ;; put_monitor (with_lock MutexUnlocked m) ;; emit EvMutexUnlock.

Definition ddsrt_mutex_destroy : M unit :=
  m <- get_monitor ;; put_monitor (with_lock MutexDestroyed m) ;; emit EvMutexDestroy.

(** Number of events attached to a listener. *)
Definition listener_load (l : iox_listener) : nat :=
  ((if l_user_trigger l then 1 else 0) + List.length (l_subscribers l))%nat.

Section Platform.

(** Capacity of a freshly initialised listener (a build-time constant of
    the iceoryx binding). *)
Variable listener_capacity : nat.

(** The C type of [m_number_of_attached_readers]. *)
Variable count_t : c_int_type.

(** Modelled from the spec: [iox_listener_init] constructs the Event
    Listener, live and with nothing attached. *)
Definition iox_listener_init : M unit :=
  m <- get_monitor ;;
  put_monitor (with_listener {| l_alive := true; l_capacity := listener_capacity;
                                l_user_trigger := false; l_subscribers := [] |} m) ;;
  emit EvListenerInit.

(** Modelled from the spec: [iox_listener_deinit] tears the Event
    Listener down. *)
Definition iox_listener_deinit : M unit :=
  m <- get_monitor ;;
  let l := m_listener m in
  put_monitor (with_listener {| l_alive := false; l_capacity := l_capacity l;
                                l_user_trigger := false; l_subscribers := [] |} m) ;;
  emit EvListenerDeinit.

(** Modelled from the spec: [iox_user_trigger_init] on
    [m_wakeup_trigger_storage.storage] constructs a trigger that has not
    fired; the payload fields lie outside the storage it is given. *)
Definition iox_user_trigger_init : M unit :=
  m <- get_monitor ;;
  let t := m_wakeup_trigger_storage m in
  put_monitor (with_trigger {| storage := 0; call := call t; arg := arg t |} m) ;;
  emit EvUserTriggerInit.

(** Modelled from the spec: [iox_listener_attach_user_trigger_event]
    registers the trigger's firing with the listener under the wake-up
    callback. *)
Definition iox_listener_attach_user_trigger_event : M unit :=
  m <- get_monitor ;;
  let l := m_listener m in
  put_monitor (with_listener {| l_alive := l_alive l; l_capacity := l_capacity l;
                                l_user_trigger := true;
                                l_subscribers := l_subscribers l |} m) ;;
  emit EvAttachUserTrigger.

(** Modelled from the spec: [iox_user_trigger_trigger] fires the
    trigger: one more firing for the listener thread to observe. *)
Definition iox_user_trigger_trigger : M unit :=
  m <- get_monitor ;;
  let t := m_wakeup_trigger_storage m in
  put_monitor (with_trigger {| storage := S (storage t); call := call t; arg := arg t |} m) ;;
  emit EvTrigger.

(** Modelled from the spec: the answer of the listener to a
    registration request; it refuses when its fixed capacity is reached
    (section 4.1). *)
Definition listener_verdict (l : iox_listener) (sub : iox_sub_t) : iox_ListenerResult :=
  if (l_capacity l <=? listener_load l)%nat then ListenerResult_LISTENER_FULL
  else ListenerResult_SUCCESS.

(** Modelled from the spec: [iox_listener_attach_subscriber_event] for
    SubscriberEvent_HAS_DATA with the subscriber callback registers the
    subscriber when the listener accepts it and leaves the listener as it
    was otherwise. *)
Definition iox_listener_attach_subscriber_event (sub : iox_sub_t) : M iox_ListenerResult :=
  m <- get_monitor ;;
  let l := m_listener m in
  let res := listener_verdict l sub in
  match res with
  | ListenerResult_SUCCESS =>
      put_monitor (with_listener {| l_alive := l_alive l; l_capacity := l_capacity l;
                                    l_user_trigger := l_user_trigger l;
                                    l_subscribers := l_subscribers l ++ [sub] |} m)
  | ListenerResult_LISTENER_FULL => ret tt
  end ;;
  emit (EvAttachSubscriber sub res) ;;
  ret res.

(** Modelled from the spec: [iox_listener_detach_subscriber_event] for
    SubscriberEvent_HAS_DATA unregisters the subscriber's event source. *)
Definition iox_listener_detach_subscriber_event (sub : iox_sub_t) : M unit :=
  m <- get_monitor ;;
  let l := m_listener m in
  put_monitor (with_listener {| l_alive := l_alive l; l_capacity := l_capacity l;
                                l_user_trigger := l_user_trigger l;
                                l_subscribers :=
                                  filter (fun s => negb (Nat.eqb sub s)) (l_subscribers l) |} m) ;;
  emit (EvDetachSubscriber sub).

(** Assignments to the run state, to the count and to the payload slot
    ([storage->call] and [storage->arg]). *)
Definition set_m_state (s : shm_monitor_states) : M unit :=
  m <- get_monitor ;; put_monitor (with_state s m) ;; emit (EvWriteState s).

Definition set_m_number_of_attached_readers (n : Z) : M unit :=
  m <- get_monitor ;; put_monitor (with_count n m) ;; emit (EvWriteCount n).

Definition set_payload (f : option fn_addr) (a : arg_addr) : M unit :=
  m <- get_monitor ;;
  let t := m_wakeup_trigger_storage m in
  put_monitor (with_trigger {| storage := storage t; call := f; arg := a |} m) ;;
  emit (EvWritePayload f a).

(** [DDS_CLOG (DDS_LC_SHM, ...)]; [nl] is the line feed that ends every
    message of the file. *)
Definition nl : string := String (Ascii.ascii_of_nat 10) EmptyString.
Definition DDS_CLOG (msg : string) : M unit := emit (EvLog msg).

Definition msg_attach_error : string := "error attaching reader" ++ nl.

(* ------------------------------------------------------------------ *)
(** ** The control operations *)

(** [shm_monitor_init] (lines 33-42).  Line 38 sets the back pointer of
    the trigger storage, which this embedding keeps implicit; the count
    and the payload slot are not assigned. *)
Definition shm_monitor_init : M unit :=
  ddsrt_mutex_init ;;
  iox_listener_init ;;
  iox_user_trigger_init ;;
  iox_listener_attach_user_trigger_event ;;
  set_m_state SHM_MONITOR_RUNNING.

(** [shm_monitor_wake_and_invoke] (lines 55-61). *)
Definition shm_monitor_wake_and_invoke (function : option fn_addr) (a : arg_addr)
  : M dds_return_t :=
  set_payload function a ;;
  iox_user_trigger_trigger ;;
  ret DDS_RETCODE_OK.

(** [shm_monitor_wake_and_disable] (lines 63-67). *)
Definition shm_monitor_wake_and_disable : M dds_return_t :=
  set_m_state SHM_MONITOR_NOT_RUNNING ;;
  iox_user_trigger_trigger ;;
  ret DDS_RETCODE_OK.

(** [shm_monitor_wake_and_enable] (lines 69-73). *)
Definition shm_monitor_wake_and_enable : M dds_return_t :=
  set_m_state SHM_MONITOR_RUNNING ;;
  iox_user_trigger_trigger ;;
  ret DDS_RETCODE_OK.

(** [shm_monitor_attach_reader] (lines 75-84). *)
Definition shm_monitor_attach_reader (reader : dds_reader) : M dds_return_t :=
  res <- iox_listener_attach_subscriber_event (m_iox_sub reader) ;;
  if negb (ListenerResult_eqb res ListenerResult_SUCCESS) then
    DDS_CLOG msg_attach_error ;;
    ret DDS_RETCODE_OUT_OF_RESOURCES
  else
    m <- get_monitor ;;
    set_m_number_of_attached_readers
      (ct_wrap count_t (m_number_of_attached_readers m + 1)) ;;
    ret DDS_RETCODE_OK.

(** [shm_monitor_detach_reader] (lines 86-90). *)
Definition shm_monitor_detach_reader (reader : dds_reader) : M dds_return_t :=
  iox_listener_detach_subscriber_event (m_iox_sub reader) ;;
  m <- get_monitor ;;
  set_m_number_of_attached_readers
    (ct_wrap count_t (m_number_of_attached_readers m - 1)) ;;
  ret DDS_RETCODE_OK.

(** [shm_wakeup_trigger_callback] (lines 145-151), run by the listener
    thread for a firing of the wake-up trigger. *)
Definition shm_wakeup_trigger_callback : M unit :=
  m <- get_monitor ;;
  let storage := m_wakeup_trigger_storage m in
  match m_state m, call storage with
  | SHM_MONITOR_RUNNING, Some f => emit (EvCall f (arg storage))
  | _, _ => ret tt
  end.

End Platform.

(* ------------------------------------------------------------------ *)
(** ** Teardown *)

(** The statements of [shm_monitor_destroy] (lines 44-53); the thread that
    runs it is at one of them. *)
Inductive destroy_pc :=
| PcWakeAndDisable
| PcSpin
| PcListenerDeinit
| PcMutexDestroy
| PcReturned.

(** One statement of [shm_monitor_destroy].  The loop of line 47 has an
    empty body: each turn only reads [m_state] again. *)
Definition shm_monitor_destroy_step (pc : destroy_pc) : M destroy_pc :=
  match pc with
  | PcWakeAndDisable =>
      shm_monitor_wake_and_disable ;; ret PcSpin
  | PcSpin =>
      m <- get_monitor ;;
      if shm_monitor_states_eqb (m_state m) SHM_MONITOR_RUNNING
      then ret PcSpin
      else ret PcListenerDeinit
  | PcListenerDeinit =>
      iox_listener_deinit ;; ret PcMutexDestroy
  | PcMutexDestroy =>
      ddsrt_mutex_destroy ;; ret PcReturned
  | PcReturned => ret PcReturned
  end.

(** [shm_monitor_destroy] run by a thread on its own: [fuel] bounds the
    number of statements executed, and the result tells whether the
    function returned. *)
Fixpoint shm_monitor_destroy_from (fuel : nat) (pc : destroy_pc) : M bool :=
  match pc, fuel with
  | PcReturned, _ => ret true
  | _, O => ret false
  | _, S fuel' =>
      pc' <- shm_monitor_destroy_step pc ;;
      shm_monitor_destroy_from fuel' pc'
  end.

Definition shm_monitor_destroy (fuel : nat) : M bool :=
  shm_monitor_destroy_from fuel PcWakeAndDisable.

(* ------------------------------------------------------------------ *)
(** ** The listener thread and the threads around it *)

(** The calls an application thread can make on a live monitor. *)
Inductive control_op :=
| CtlAttachReader (reader : dds_reader)
| CtlDetachReader (reader : dds_reader)
| CtlWakeAndInvoke (function : option fn_addr) (a : arg_addr)
| CtlWakeAndDisable
| CtlWakeAndEnable.

Definition run_control_op (count_t : c_int_type) (op : control_op) : M dds_return_t :=
  match op with
  | CtlAttachReader r => shm_monitor_attach_reader count_t r
  | CtlDetachReader r => shm_monitor_detach_reader count_t r
  | CtlWakeAndInvoke f a => shm_monitor_wake_and_invoke f a
  | CtlWakeAndDisable => shm_monitor_wake_and_disable
  | CtlWakeAndEnable => shm_monitor_wake_and_enable
  end.

(** What the listener thread is doing: waiting for the next event, or
    inside [receive_data_wakeup_handler] for a subscriber. *)
Inductive listener_thread :=
| LtWaiting
| LtInHandler (sub : iox_sub_t).

(** The monitor, the listener thread and a thread that may be inside
    [shm_monitor_destroy] ([None] while nobody called it). *)
Record system := {
  sys_world : world;
  sys_listener : listener_thread;
  sys_destroy : option destroy_pc
}.

(** The atomic steps of the threads.  Modelled from the spec (sections
    4.2 and 5): the listener thread delivers a firing of the wake-up
    trigger by running [shm_wakeup_trigger_callback], and a HAS_DATA event
    of an attached subscriber by running [shm_subscriber_callback] (lines
    153-159), which enters the handler only when it reads
    [SHM_MONITOR_RUNNING]; callbacks are run one at a time. *)
Inductive sched :=
| Control (op : control_op)
| CallDestroy
| RunDestroy
| ListenerTrigger
| ListenerHasData (sub : iox_sub_t)
| ListenerReturn.

Definition consume_firing : M unit :=
  m <- get_monitor ;;
  let t := m_wakeup_trigger_storage m in
  put_monitor (with_trigger {| storage := pred (storage t); call := call t; arg := arg t |} m).

Definition sys_step (count_t : c_int_type) (a : sched) (s : system) : system :=
  let w := sys_world s in
  let l := m_listener (monitor w) in
  match a with
  | Control op =>
      {| sys_world := exec (run_control_op count_t op) w;
         sys_listener := sys_listener s; sys_destroy := sys_destroy s |}
  | CallDestroy =>
      match sys_destroy s with
      | None => {| sys_world := w; sys_listener := sys_listener s;
                   sys_destroy := Some PcWakeAndDisable |}
      | Some _ => s
      end
  | RunDestroy =>
      match sys_destroy s with
      | Some pc =>
          let (pc', w') := shm_monitor_destroy_step pc w in
          {| sys_world := w'; sys_listener := sys_listener s; sys_destroy := Some pc' |}
      | None => s
      end
  | ListenerTrigger =>
      match sys_listener s with
      | LtWaiting =>
          if l_alive l && l_user_trigger l
             && negb (Nat.eqb (storage (m_wakeup_trigger_storage (monitor w))) 0)
          then {| sys_world := exec (consume_firing ;; shm_wakeup_trigger_callback) w;
                  sys_listener := LtWaiting; sys_destroy := sys_destroy s |}
          else s
      | LtInHandler _ => s
      end
  | ListenerHasData sub =>
      match sys_listener s with
      | LtWaiting =>
          if l_alive l && existsb (Nat.eqb sub) (l_subscribers l)
          then
            match m_state (monitor w) with
            | SHM_MONITOR_RUNNING =>
                {| sys_world := w; sys_listener := LtInHandler sub;
                   sys_destroy := sys_destroy s |}
            | SHM_MONITOR_NOT_RUNNING => s
            end
          else s
      | LtInHandler _ => s
      end
  | ListenerReturn =>
      {| sys_world := w; sys_listener := LtWaiting; sys_destroy := sys_destroy s |}
  end.

Definition sys_run (count_t : c_int_type) (sch : list sched) (s : system) : system :=
  fold_left (fun s a => sys_step count_t a s) sch s.

(** Both the listener and the lock are gone. *)
Definition torn_down (s : system) : bool :=
  let m := monitor (sys_world s) in
  negb (l_alive (m_listener m))
  && match m_lock m with MutexDestroyed => true | _ => false end.

(** The listener thread is not inside a callback. *)
Definition quiescent (s : system) : bool :=
  match sys_listener s with LtWaiting => true | LtInHandler _ => false end.

(* ------------------------------------------------------------------ *)
(** ** Reading traces *)

(** The events a computation appends to the trace. *)
Definition events_of {A} (m : M A) (w : world) : list event :=
  skipn (List.length (trace w)) (trace (exec m w)).

(** The invocations [call (arg)] recorded in a trace. *)
Fixpoint calls_in (tr : list event) : list (fn_addr * arg_addr) :=
  match tr with
  | [] => []
  | EvCall f a :: tr' => (f, a) :: calls_in tr'
  | _ :: tr' => calls_in tr'
  end.



(** Whether every write of the run state and of the reader count in a
    trace happens between a [ddsrt_mutex_lock] and the matching
    [ddsrt_mutex_unlock]; [held] tells whether the lock is held when the
    trace starts. *)
Fixpoint writes_under_lock (held : bool) (tr : list event) : bool :=
  match tr with
  | [] => true
  | EvMutexLock :: tr' => writes_under_lock true tr'
  | EvMutexUnlock :: tr' => writes_under_lock false tr'
  | EvWriteState _ :: tr' => held && writes_under_lock held tr'
  | EvWriteCount _ :: tr' => held && writes_under_lock held tr'
  | _ :: tr' => writes_under_lock held tr'
  end.

Definition is_guarded_write (e : event) : bool :=
  match e with
  | EvWriteState _ | EvWriteCount _ => true
  | _ => false
  end.

Definition is_lock_event (e : event) : bool :=
  match e with
  | EvMutexInit | EvMutexLock | EvMutexUnlock | EvMutexDestroy => true
  | _ => false
  end.

Definition lock_held (w : world) : bool :=
  match m_lock (monitor w) with MutexLocked => true | _ => false end.

(* ------------------------------------------------------------------ *)
(** ** Sequences of attach and detach calls *)

Inductive reader_call :=
| Attach (reader : dds_reader)
| Detach (reader : dds_reader).

Definition run_reader_call (count_t : c_int_type) (c : reader_call) : M dds_return_t :=
  match c with
  | Attach r => shm_monitor_attach_reader count_t r
  | Detach r => shm_monitor_detach_reader count_t r
  end.

(** What a call contributes to "successful attach calls minus detach
    calls". *)
Definition call_delta (c : reader_call) (r : dds_return_t) : Z :=
  match c, r with
  | Attach _, DDS_RETCODE_OK => 1
  | Attach _, DDS_RETCODE_OUT_OF_RESOURCES => 0
  | Detach _, _ => -1
  end.

(** Runs the calls in order; returns the final world and the number of
    successful attach calls minus the number of detach calls. *)
Fixpoint run_reader_calls (count_t : c_int_type) (cs : list reader_call) (w : world)
  : world * Z :=
  match cs with
  | [] => (w, 0)
  | c :: cs' =>
      let (r, w') := run_reader_call count_t c w in
      let (w'', b) := run_reader_calls count_t cs' w' in
      (w'', call_delta c r + b)
  end.

Definition count_after (count_t : c_int_type) (cs : list reader_call) (w : world) : Z :=
  m_number_of_attached_readers (monitor (fst (run_reader_calls count_t cs w))).

Definition balance_after (count_t : c_int_type) (cs : list reader_call) (w : world) : Z :=
  snd (run_reader_calls count_t cs w).

(* ------------------------------------------------------------------ *)
(** ** The reception pipeline *)

(** What a run of the pipeline for a reader changes: the chunks waiting
    on [rd->m_iox_sub], the content of [rd->m_rd->rhc], and the effects
    performed. *)
Record rx_state := {
  sub_queue : list chunk;
  rhc : list rhc_entry;
  rx_trace : list event
}.

Definition rx_emit (e : event) (s : rx_state) : rx_state :=
  {| sub_queue := sub_queue s; rhc := rhc s; rx_trace := rx_trace s ++ [e] |}.

Definition rx_emits (es : list event) (s : rx_state) : rx_state :=
  {| sub_queue := sub_queue s; rhc := rhc s; rx_trace := rx_trace s ++ es |}.

(** How a C computation ends in this embedding: with a result, without
    one because the bound on loop turns was reached, or by dereferencing a
    null pointer. *)
Inductive outcome (A : Type) :=
| Done (a : A)
| OutOfFuel
| Fault.
Arguments Done {A} a.
Arguments OutOfFuel {A}.
Arguments Fault {A}.

(** How one turn of [while (true)] ends. *)
Inductive flow := Break | Continue.

(** Modelled from the spec: [iox_sub_take_chunk], the non-blocking take
    of the Chunk Source (section 6), hands out the oldest waiting chunk
    through the out parameter, or reports that there is none and leaves
    the out parameter alone. *)
Definition iox_sub_take_chunk (chunk_var : option chunk) (s : rx_state)
  : iox_ChunkReceiveResult * option chunk * rx_state :=
  match sub_queue s with
  | [] =>
      (ChunkReceiveResult_NO_CHUNK_AVAILABLE, chunk_var,
       rx_emit (EvTakeChunk ChunkReceiveResult_NO_CHUNK_AVAILABLE None) s)
  | c :: q =>
      (ChunkReceiveResult_SUCCESS, Some c,
       rx_emit (EvTakeChunk ChunkReceiveResult_SUCCESS (Some c))
         {| sub_queue := q; rhc := rhc s; rx_trace := rx_trace s |})
  end.

(** Modelled from the spec: [entidx_lookup_proxy_writer_guid] resolves
    a writer identity in the entity index. *)
Definition entidx_lookup_proxy_writer_guid (gv : ddsi_domaingv) (g : ddsi_guid_t)
  : option proxy_writer :=
  entity_index gv g.

(** Modelled from the spec: [ddsi_serdata_from_iox], the Sample
    Reconstructor (section 6), gives a sample of the given type and kind
    built on the chunk. *)
Definition ddsi_serdata_from_iox (stype : ddsi_sertype) (kind : nat) (c : chunk)
  : ddsi_serdata :=
  {| sd_type := stype; sd_kind := kind; sd_chunk := c; timestamp := 0; statusinfo := 0 |}.

(** [d->timestamp.v = v]. *)
Definition set_timestamp (v : Z) (d : ddsi_serdata) : ddsi_serdata :=
  {| sd_type := sd_type d; sd_kind := sd_kind d; sd_chunk := sd_chunk d;
     timestamp := v; statusinfo := statusinfo d |}.

(** Modelled from the spec: [ddsi_tkmap_lookup_instance_ref] looks up or
    creates the instance token of the sample, or fails. *)
Definition ddsi_tkmap_lookup_instance_ref (gv : ddsi_domaingv) (d : ddsi_serdata)
  (s : rx_state) : option ddsi_tkmap_instance * rx_state :=
  (m_tkmap gv d, rx_emit (EvTkmapLookupInstanceRef d (m_tkmap gv d)) s).

(** Modelled from the spec: [ddsi_make_writer_info] (section 4.3, step
    7): identity, QoS-derived data and the sample's status info. *)
Definition ddsi_make_writer_info (pwr : proxy_writer) (statusinfo : Z) : ddsi_writer_info :=
  {| wi_guid := e_guid pwr; wi_xqos := c_xqos pwr; wi_statusinfo := statusinfo |}.

(** Modelled from the spec: [ddsi_rhc_store] hands the triple to the
    History Cache of the reader, which reports a result and leaves the
    content its policy decides. *)
Definition ddsi_rhc_store (rd : dds_reader) (wrinfo : ddsi_writer_info)
  (d : ddsi_serdata) (tk : ddsi_tkmap_instance) (s : rx_state) : bool * rx_state :=
  let (stored, content) := m_rhc rd (rhc s) (wrinfo, d, tk) in
  (stored,
   rx_emit (EvRhcStore wrinfo d tk)
     {| sub_queue := sub_queue s; rhc := content; rx_trace := rx_trace s |}).

(** The code after the label [release] (lines 136-140). *)
Definition release (tk : option ddsi_tkmap_instance) (d : option ddsi_serdata)
  (s : rx_state) : rx_state :=
  let s := match tk with
           | Some t => rx_emit (EvTkmapInstanceUnref t) s
           | None => s
           end in
  match d with
  | Some d' => rx_emit (EvSerdataUnref d') s
  | None => s
  end.

Definition msg_pwr_null : string := "pwr is NULL and we'll ignore." ++ nl.
Definition msg_tk_failed : string := "ddsi_tkmap_lookup_instance_ref failed." ++ nl.

(** One turn of the loop of [receive_data_wakeup_handler] (lines 99-140).
    [chunk_var] is the local [chunk], which lives across the turns. *)
Definition drain_turn (rd : dds_reader) (chunk_var : option chunk) (s : rx_state)
  : outcome (flow * option chunk * rx_state) :=
  let s := rx_emit EvShmMutexLock s in
  let '(take_result, chunk_var, s) := iox_sub_take_chunk chunk_var s in
  let s := rx_emit EvShmMutexUnlock s in
  if negb (ChunkReceiveResult_eqb ChunkReceiveResult_SUCCESS take_result) then
    Done (Break, chunk_var, s)
  else
    match chunk_var with
    | None => Fault
    | Some c =>
        let hdr := ice_hdr c in
        match entidx_lookup_proxy_writer_guid (e_gv rd) (guid hdr) with
        | None =>
            let s := rx_emit (EvLog msg_pwr_null) s in
            Done (Continue, chunk_var, s)
        | Some pwr =>
            let d := ddsi_serdata_from_iox (m_stype rd) (data_kind hdr) c in
            let s := rx_emit (EvSerdataFromIox c) s in
            let d := set_timestamp (tstamp hdr) d in
            let (tk, s) := ddsi_tkmap_lookup_instance_ref (e_gv rd) d s in
            let s :=
              match tk with
              | None => rx_emit (EvLog msg_tk_failed) s
              | Some tk' =>
                  let wrinfo := ddsi_make_writer_info pwr (statusinfo d) in
                  let (_, s) := ddsi_rhc_store rd wrinfo d tk' s in
                  s
              end in
            let s := release tk (Some d) s in
            Done (Continue, chunk_var, s)
        end
    end.

(** The loop; [fuel] bounds the number of turns. *)
Fixpoint drain_loop (fuel : nat) (rd : dds_reader) (chunk_var : option chunk)
  (s : rx_state) : outcome rx_state :=
  match fuel with
  | O => OutOfFuel
  | S fuel' =>
      match drain_turn rd chunk_var s with
      | Done (Break, _, s') => Done s'
      | Done (Continue, chunk_var', s') => drain_loop fuel' rd chunk_var' s'
      | OutOfFuel => OutOfFuel
      | Fault => Fault
      end
  end.

(** [receive_data_wakeup_handler] (lines 92-143). *)
Definition receive_data_wakeup_handler (fuel : nat) (rd : dds_reader) (s : rx_state)
  : outcome rx_state :=
  let s := rx_emit EvThreadAwake s in
  match drain_loop fuel rd None s with
  | Done s' => Done (rx_emit EvThreadAsleep s')
  | OutOfFuel => OutOfFuel
  | Fault => Fault
  end.

(** [shm_subscriber_callback] (lines 153-159); [st] is the run state the
    callback reads from the monitor. *)
Definition shm_subscriber_callback (fuel : nat) (st : shm_monitor_states)
  (rd : dds_reader) (s : rx_state) : outcome rx_state :=
  match st with
  | SHM_MONITOR_RUNNING => receive_data_wakeup_handler fuel rd s
  | SHM_MONITOR_NOT_RUNNING => Done s
  end.

(** *** What a drain is expected to leave behind *)

(** The sample line 118-120 build for a chunk. *)
Definition sample_of (rd : dds_reader) (c : chunk) : ddsi_serdata :=
  set_timestamp (tstamp (ice_hdr c))
    (ddsi_serdata_from_iox (m_stype rd) (data_kind (ice_hdr c)) c).

(** The events of the turn that takes chunk [c]. *)
Definition turn_events (rd : dds_reader) (c : chunk) : list event :=
  [EvShmMutexLock; EvTakeChunk ChunkReceiveResult_SUCCESS (Some c); EvShmMutexUnlock]
  ++ match entity_index (e_gv rd) (guid (ice_hdr c)) with
     | None => [EvLog msg_pwr_null]
     | Some pwr =>
         let d := sample_of rd c in
         [EvSerdataFromIox c; EvTkmapLookupInstanceRef d (m_tkmap (e_gv rd) d)]
         ++ match m_tkmap (e_gv rd) d with
            | None => [EvLog msg_tk_failed; EvSerdataUnref d]
            | Some tk =>
                [EvRhcStore (ddsi_make_writer_info pwr (statusinfo d)) d tk;
                 EvTkmapInstanceUnref tk; EvSerdataUnref d]
            end
     end.

(** The triples the turn that takes chunk [c] hands to [ddsi_rhc_store]. *)
Definition turn_stores (rd : dds_reader) (c : chunk) : list rhc_entry :=
  match entity_index (e_gv rd) (guid (ice_hdr c)) with
  | None => []
  | Some pwr =>
      let d := sample_of rd c in
      match m_tkmap (e_gv rd) d with
      | None => []
      | Some tk => [(ddsi_make_writer_info pwr (statusinfo d), d, tk)]
      end
  end.

(** The content the history cache of the reader is left with when the
    triples [es] are handed to it in order, starting from content [h]. *)
Definition store_all (rd : dds_reader) (h : list rhc_entry) (es : list rhc_entry)
  : list rhc_entry :=
  fold_left (fun h e => snd (m_rhc rd h e)) es h.

(** The events of the turn that finds the chunk source empty. *)
Definition last_turn_events : list event :=
  [EvShmMutexLock; EvTakeChunk ChunkReceiveResult_NO_CHUNK_AVAILABLE None;
   EvShmMutexUnlock].

(** The chunks taken and the results of the takes, as a trace shows them. *)
Fixpoint taken_chunks (tr : list event) : list chunk :=
  match tr with
  | [] => []
  | EvTakeChunk ChunkReceiveResult_SUCCESS (Some c) :: tr' => c :: taken_chunks tr'
  | _ :: tr' => taken_chunks tr'
  end.

Fixpoint take_results (tr : list event) : list iox_ChunkReceiveResult :=
  match tr with
  | [] => []
  | EvTakeChunk res _ :: tr' => res :: take_results tr'
  | _ :: tr' => take_results tr'
  end.

Definition chunk_eqb (c1 c2 : chunk) : bool :=
  Nat.eqb (chunk_addr c1) (chunk_addr c2).

(** Whether a trace gives the chunk back: through [iox_sub_release_chunk]
    or by dropping the reference to the sample that owns it. *)
Definition releases_chunk (c : chunk) (e : event) : bool :=
  match e with
  | EvReleaseChunk c' => chunk_eqb c c'
  | EvSerdataUnref d => chunk_eqb c (sd_chunk d)
  | _ => false
  end.

Definition chunk_released (c : chunk) (tr : list event) : bool :=
  existsb (releases_chunk c) tr.

(** Whether a trace hands a sample built on the chunk to the history
    cache. *)
Definition stores_chunk (c : chunk) (e : event) : bool :=
  match e with
  | EvRhcStore _ d _ => chunk_eqb c (sd_chunk d)
  | _ => false
  end.

Definition chunk_stored (c : chunk) (tr : list event) : bool :=
  existsb (stores_chunk c) tr.

(* ------------------------------------------------------------------ *)
(** ** Concrete monitors, readers and chunks *)

(** A monitor in zeroed memory, before [shm_monitor_init]. *)
Definition zero_monitor : shm_monitor_t :=
  {| m_lock := MutexUninit;
     m_listener := {| l_alive := false; l_capacity := 0;
                      l_user_trigger := false; l_subscribers := [] |};
     m_wakeup_trigger_storage := {| storage := 0; call := None; arg := 0%nat |};
     m_number_of_attached_readers := 0;
     m_state := SHM_MONITOR_NOT_RUNNING |}.

(** The world right after [shm_monitor_init] on zeroed memory. *)
Definition fresh_world (capacity : nat) : world :=
  exec (shm_monitor_init capacity) {| monitor := zero_monitor; trace := [] |}.

Definition fresh_system (capacity : nat) : system :=
  {| sys_world := fresh_world capacity; sys_listener := LtWaiting; sys_destroy := None |}.

(** An entity index that knows the writers 1 and 2, and a keyed-instance
    map that has no instance for samples stamped with a negative time. *)
Definition gv0 : ddsi_domaingv :=
  {| entity_index := fun g =>
       if Z.eqb g 1 then Some {| e_guid := 1; c_xqos := 10 |}
       else if Z.eqb g 2 then Some {| e_guid := 2; c_xqos := 20 |}
       else None;
     m_tkmap := fun d =>
       if Z.ltb (timestamp d) 0 then None else Some (Z.to_nat (timestamp d)) |}.

(** A history cache that keeps everything, and one that keeps a single
    sample and refuses the others. *)
Definition keep_all : rhc_store_policy := fun h e => (true, h ++ [e]).
Definition keep_first : rhc_store_policy :=
  fun h e => match h with [] => (true, [e]) | _ :: _ => (false, h) end.

Definition rd0 : dds_reader :=
  {| m_iox_sub := 7%nat; m_stype := 1%nat; e_gv := gv0; m_rhc := keep_all |}.
Definition rd1 : dds_reader :=
  {| m_iox_sub := 8%nat; m_stype := 1%nat; e_gv := gv0; m_rhc := keep_all |}.
Definition rd_small_cache : dds_reader :=
  {| m_iox_sub := 9%nat; m_stype := 1%nat; e_gv := gv0; m_rhc := keep_first |}.

Definition mk_chunk (addr : nat) (g : ddsi_guid_t) (t : Z) : chunk :=
  {| chunk_addr := addr; ice_hdr := {| guid := g; tstamp := t; data_kind := 1 |} |}.

(** A chunk of a known writer, one of an unknown writer, and one of a
    known writer for which the instance lookup fails. *)
Definition chunk_known : chunk := mk_chunk 100 1 5.
Definition chunk_unknown : chunk := mk_chunk 101 99 6.
Definition chunk_no_instance : chunk := mk_chunk 102 2 (-1).
Definition chunk_known' : chunk := mk_chunk 103 2 8.

Definition rx_start (q : list chunk) : rx_state :=
  {| sub_queue := q; rhc := []; rx_trace := [] |}.

(** An operation that does take the lock around its write, to compare
    with. *)
Definition locked_disable : M dds_return_t :=
  ddsrt_mutex_lock ;;
  set_m_state SHM_MONITOR_NOT_RUNNING ;;
  ddsrt_mutex_unlock ;;
  ret DDS_RETCODE_OK.

(** [n] firings of the wake-up trigger delivered one after the other. *)
Fixpoint deliver_firings (n : nat) : M unit :=
  match n with
  | O => ret tt
  | S n' => shm_wakeup_trigger_callback ;; deliver_firings n'
  end.

(** The world with another run state: what the callback sees when the
    state was changed before it looks. *)
Definition world_with_state (st : shm_monitor_states) (w : world) : world :=
  {| monitor := with_state st (monitor w); trace := trace w |}.

(* ------------------------------------------------------------------ *)
(** ** Sequences of control operations *)

(** The calls of a list made one after the other, by any threads. *)
Definition run_control_ops (count_t : c_int_type) (ops : list control_op) (w : world)
  : world :=
  fold_left (fun w op => exec (run_control_op count_t op) w) ops w.

(** The run state a call leaves, given the one it finds. *)
Definition state_written (op : control_op) (st : shm_monitor_states)
  : shm_monitor_states :=
  match op with
  | CtlWakeAndDisable => SHM_MONITOR_NOT_RUNNING
  | CtlWakeAndEnable => SHM_MONITOR_RUNNING
  | _ => st
  end.

(** The payload a call leaves, given the one it finds. *)
Definition payload_written (op : control_op) (p : option fn_addr * arg_addr)
  : option fn_addr * arg_addr :=
  match op with
  | CtlWakeAndInvoke f a => (f, a)
  | _ => p
  end.

(** How often a call fires the wake-up trigger. *)
Definition firings_of (op : control_op) : nat :=
  match op with
  | CtlAttachReader _ | CtlDetachReader _ => 0
  | _ => 1
  end.

Definition is_wake_and_invoke (op : control_op) : bool :=
  match op with
  | CtlWakeAndInvoke _ _ => true
  | _ => false
  end.

Definition payload_of (m : shm_monitor_t) : option fn_addr * arg_addr :=
  (call (m_wakeup_trigger_storage m), arg (m_wakeup_trigger_storage m)).

Definition pending_firings (m : shm_monitor_t) : nat :=
  storage (m_wakeup_trigger_storage m).

(* ------------------------------------------------------------------ *)
(** ** Reading the traces of the pipeline *)

(** The events of a trace picked out by [f], in order. *)
Fixpoint pick {A : Type} (f : event -> option A) (tr : list event) : list A :=
  match tr with
  | [] => []
  | e :: tr' =>
      match f e with
      | Some a => a :: pick f tr'
      | None => pick f tr'
      end
  end.


Definition samples_dropped : list event -> list ddsi_serdata :=
  pick (fun e => match e with EvSerdataUnref d => Some d | _ => None end).



Definition entries_stored : list event -> list rhc_entry :=
  pick (fun e => match e with EvRhcStore wi d tk => Some (wi, d, tk) | _ => None end).

Definition chunks_released_directly : list event -> list chunk :=
  pick (fun e => match e with EvReleaseChunk c => Some c | _ => None end).

Definition logs_in : list event -> list string :=
  pick (fun e => match e with EvLog msg => Some msg | _ => None end).

(** Whether the writer of a chunk is in the reader's entity index, and
    whether moreover the instance lookup succeeds for the sample built on
    the chunk. *)
Definition writer_known (rd : dds_reader) (c : chunk) : bool :=
  match entity_index (e_gv rd) (guid (ice_hdr c)) with
  | Some _ => true
  | None => false
  end.

Definition storable (rd : dds_reader) (c : chunk) : bool :=
  writer_known rd c
  && match m_tkmap (e_gv rd) (sample_of rd c) with
     | Some _ => true
     | None => false
     end.

(** The message logged for a chunk that is not stored. *)
Definition skip_message (rd : dds_reader) (c : chunk) : list string :=
  if storable rd c then []
  else if writer_known rd c then [msg_tk_failed]
  else [msg_pwr_null].

(** The chunk an entry of the history cache was built on. *)
Definition entry_chunk (e : rhc_entry) : chunk := sd_chunk (snd (fst e)).

(** Whether a trace respects the transport-wide mutex of lines 100-102:
    it is taken only when free and released only when held, a take
    happens only under it, everything else only outside it, and it is free
    at the end.  [held] tells whether it is held when the trace starts. *)
Fixpoint shm_lock_discipline (held : bool) (tr : list event) : bool :=
  match tr with
  | [] => negb held
  | EvShmMutexLock :: tr' => negb held && shm_lock_discipline true tr'
  | EvShmMutexUnlock :: tr' => held && shm_lock_discipline false tr'
  | EvTakeChunk _ _ :: tr' => held && shm_lock_discipline held tr'
  | _ :: tr' => negb held && shm_lock_discipline held tr'
  end.

(** The events a run of the pipeline added to the trace of [s]. *)
Definition rx_events_since (s s' : rx_state) : list event :=
  skipn (List.length (rx_trace s)) (rx_trace s').

(** Chunks arriving on the reader's chunk source. *)
Definition enqueue (q : list chunk) (s : rx_state) : rx_state :=
  {| sub_queue := sub_queue s ++ q; rhc := rhc s; rx_trace := rx_trace s |}.

(** The events of a whole run of the handler over the chunks [q]. *)
Definition handler_events (rd : dds_reader) (q : list chunk) : list event :=
  [EvThreadAwake] ++ flat_map (turn_events rd) q ++ last_turn_events ++ [EvThreadAsleep].

Definition four_chunks : list chunk :=
  [chunk_known; chunk_unknown; chunk_no_instance; chunk_known'].

(* ================================================================== *)
(** * Properties *)

(** ** Arithmetic of counters *)

Lemma ct_modulus_pos (ct : c_int_type) : 0 < ct_modulus ct.
Proof. unfold ct_modulus. apply Z.pow_pos_nonneg; lia. Qed.

Lemma ct_wrap_in_range (ct : c_int_type) (z : Z) :
  ct_in_range ct z -> ct_wrap ct z = z.
Proof.
  unfold ct_in_range, ct_wrap, ct_max. intros H.
  pose proof (ct_modulus_pos ct).
  rewrite Z.mod_small by lia. lia.
Qed.

Lemma ct_wrap_range (ct : c_int_type) (z : Z) : ct_in_range ct (ct_wrap ct z).
Proof.
  unfold ct_in_range, ct_wrap, ct_max.
  pose proof (Z.mod_pos_bound (z - ct_min ct) (ct_modulus ct) (ct_modulus_pos ct)).
  lia.
Qed.

Lemma ct_wrap_add (ct : c_int_type) (x y : Z) :
  ct_wrap ct (ct_wrap ct x + y) = ct_wrap ct (x + y).
Proof.
  unfold ct_wrap. f_equal.
  replace (ct_min ct + (x - ct_min ct) mod ct_modulus ct + y - ct_min ct)
    with ((x - ct_min ct) mod ct_modulus ct + y) by lia.
  rewrite Zplus_mod_idemp_l. f_equal. lia.
Qed.

Lemma ct_zero_in_range (ct : c_int_type) : ct_in_range ct 0.
Proof.
  unfold ct_in_range, ct_max, ct_min, ct_modulus.
  destruct (ct_signed ct).
  - assert (H : 2 ^ Z.pos (ct_bits ct) = 2 * 2 ^ (Z.pos (ct_bits ct) - 1)).
    { rewrite <- Z.pow_succ_r by lia. f_equal. lia. }
    assert (0 < 2 ^ (Z.pos (ct_bits ct) - 1)) by (apply Z.pow_pos_nonneg; lia).
    lia.
  - assert (0 < 2 ^ Z.pos (ct_bits ct)) by (apply Z.pow_pos_nonneg; lia). lia.
Qed.

(** ** Traces *)

Lemma skipn_length_app {A} (l r : list A) : skipn (List.length l) (l ++ r) = r.
Proof. induction l; simpl; auto. Qed.

Lemma events_of_app {A} (m : M A) (w : world) (es : list event) :
  trace (exec m w) = trace w ++ es -> events_of m w = es.
Proof. unfold events_of. intros ->. apply skipn_length_app. Qed.

Arguments ct_wrap : simpl never.

(** What each control operation does to the world, written out. *)

Lemma wake_and_disable_spec (w : world) :
  shm_monitor_wake_and_disable w =
  (DDS_RETCODE_OK,
   {| monitor :=
        with_trigger {| storage := S (storage (m_wakeup_trigger_storage (monitor w)));
                        call := call (m_wakeup_trigger_storage (monitor w));
                        arg := arg (m_wakeup_trigger_storage (monitor w)) |}
          (with_state SHM_MONITOR_NOT_RUNNING (monitor w));
      trace := trace w ++ [EvWriteState SHM_MONITOR_NOT_RUNNING; EvTrigger] |}).
Proof.
  destruct w as [m tr]. cbv [shm_monitor_wake_and_disable set_m_state
    iox_user_trigger_trigger bind ret get_monitor put_monitor emit monitor trace].
  rewrite <- app_assoc. reflexivity.
Qed.

Lemma wake_and_enable_spec (w : world) :
  shm_monitor_wake_and_enable w =
  (DDS_RETCODE_OK,
   {| monitor :=
        with_trigger {| storage := S (storage (m_wakeup_trigger_storage (monitor w)));
                        call := call (m_wakeup_trigger_storage (monitor w));
                        arg := arg (m_wakeup_trigger_storage (monitor w)) |}
          (with_state SHM_MONITOR_RUNNING (monitor w));
      trace := trace w ++ [EvWriteState SHM_MONITOR_RUNNING; EvTrigger] |}).
Proof.
  destruct w as [m tr]. cbv [shm_monitor_wake_and_enable set_m_state
    iox_user_trigger_trigger bind ret get_monitor put_monitor emit monitor trace].
  rewrite <- app_assoc. reflexivity.
Qed.

Lemma wake_and_invoke_spec (f : option fn_addr) (a : arg_addr) (w : world) :
  shm_monitor_wake_and_invoke f a w =
  (DDS_RETCODE_OK,
   {| monitor :=
        with_trigger {| storage := S (storage (m_wakeup_trigger_storage (monitor w)));
                        call := f; arg := a |} (monitor w);
      trace := trace w ++ [EvWritePayload f a; EvTrigger] |}).
Proof.
  destruct w as [m tr]. cbv [shm_monitor_wake_and_invoke set_payload
    iox_user_trigger_trigger bind ret get_monitor put_monitor emit monitor trace].
  rewrite <- app_assoc. reflexivity.
Qed.

Lemma detach_reader_spec (ct : c_int_type) (r : dds_reader) (w : world) :
  shm_monitor_detach_reader ct r w =
  (DDS_RETCODE_OK,
   {| monitor :=
        with_count (ct_wrap ct (m_number_of_attached_readers (monitor w) - 1))
          (with_listener
             {| l_alive := l_alive (m_listener (monitor w));
                l_capacity := l_capacity (m_listener (monitor w));
                l_user_trigger := l_user_trigger (m_listener (monitor w));
                l_subscribers :=
                  filter (fun s => negb (Nat.eqb (m_iox_sub r) s))
                    (l_subscribers (m_listener (monitor w))) |} (monitor w));
      trace := trace w ++
        [EvDetachSubscriber (m_iox_sub r);
         EvWriteCount (ct_wrap ct (m_number_of_attached_readers (monitor w) - 1))] |}).
Proof.
  destruct w as [m tr]. cbv [shm_monitor_detach_reader
    iox_listener_detach_subscriber_event set_m_number_of_attached_readers
    bind ret get_monitor put_monitor emit monitor trace].
  rewrite <- app_assoc. reflexivity.
Qed.

Lemma attach_reader_spec (ct : c_int_type) (r : dds_reader) (w : world) :
  shm_monitor_attach_reader ct r w =
  match listener_verdict (m_listener (monitor w)) (m_iox_sub r) with
  | ListenerResult_SUCCESS =>
      (DDS_RETCODE_OK,
       {| monitor :=
            with_count (ct_wrap ct (m_number_of_attached_readers (monitor w) + 1))
              (with_listener
                 {| l_alive := l_alive (m_listener (monitor w));
                    l_capacity := l_capacity (m_listener (monitor w));
                    l_user_trigger := l_user_trigger (m_listener (monitor w));
                    l_subscribers :=
                      l_subscribers (m_listener (monitor w)) ++ [m_iox_sub r] |}
                 (monitor w));
          trace := trace w ++
            [EvAttachSubscriber (m_iox_sub r) ListenerResult_SUCCESS;
             EvWriteCount (ct_wrap ct (m_number_of_attached_readers (monitor w) + 1))] |})
  | res =>
      (DDS_RETCODE_OUT_OF_RESOURCES,
       {| monitor := monitor w;
          trace := trace w ++
            [EvAttachSubscriber (m_iox_sub r) res;
             EvLog msg_attach_error] |})
  end.
Proof.
  destruct w as [m tr].
  unfold shm_monitor_attach_reader, iox_listener_attach_subscriber_event,
    set_m_number_of_attached_readers, DDS_CLOG, bind, ret, get_monitor,
    put_monitor, emit.
  cbv beta iota zeta delta [monitor trace].
  destruct (listener_verdict (m_listener m) (m_iox_sub r));
    cbv beta iota zeta delta [monitor trace ListenerResult_eqb negb];
    rewrite <- app_assoc; reflexivity.
Qed.

Lemma trigger_callback_spec (w : world) :
  shm_wakeup_trigger_callback w =
  (tt,
   {| monitor := monitor w;
      trace := trace w ++
        match m_state (monitor w), call (m_wakeup_trigger_storage (monitor w)) with
        | SHM_MONITOR_RUNNING, Some f =>
            [EvCall f (arg (m_wakeup_trigger_storage (monitor w)))]
        | _, _ => []
        end |}).
Proof.
  destruct w as [m tr].
  unfold shm_wakeup_trigger_callback, bind, ret, get_monitor, emit. simpl.
  destruct (m_state m); [rewrite app_nil_r; reflexivity|].
  destruct (call (m_wakeup_trigger_storage m)); [reflexivity|].
  rewrite app_nil_r; reflexivity.
Qed.

Lemma events_of_wake_and_disable (w : world) :
  events_of shm_monitor_wake_and_disable w =
  [EvWriteState SHM_MONITOR_NOT_RUNNING; EvTrigger].
Proof. apply events_of_app. unfold exec. rewrite wake_and_disable_spec. reflexivity. Qed.

Lemma events_of_wake_and_enable (w : world) :
  events_of shm_monitor_wake_and_enable w =
  [EvWriteState SHM_MONITOR_RUNNING; EvTrigger].
Proof. apply events_of_app. unfold exec. rewrite wake_and_enable_spec. reflexivity. Qed.

Lemma events_of_wake_and_invoke (f : option fn_addr) (a : arg_addr) (w : world) :
  events_of (shm_monitor_wake_and_invoke f a) w = [EvWritePayload f a; EvTrigger].
Proof. apply events_of_app. unfold exec. rewrite wake_and_invoke_spec. reflexivity. Qed.

Lemma events_of_detach_reader (ct : c_int_type) (r : dds_reader) (w : world) :
  events_of (shm_monitor_detach_reader ct r) w =
  [EvDetachSubscriber (m_iox_sub r);
   EvWriteCount (ct_wrap ct (m_number_of_attached_readers (monitor w) - 1))].
Proof. apply events_of_app. unfold exec. rewrite detach_reader_spec. reflexivity. Qed.

Lemma events_of_attach_reader (ct : c_int_type) (r : dds_reader) (w : world) :
  events_of (shm_monitor_attach_reader ct r) w =
  match listener_verdict (m_listener (monitor w)) (m_iox_sub r) with
  | ListenerResult_SUCCESS =>
      [EvAttachSubscriber (m_iox_sub r) ListenerResult_SUCCESS;
       EvWriteCount (ct_wrap ct (m_number_of_attached_readers (monitor w) + 1))]
  | res => [EvAttachSubscriber (m_iox_sub r) res; EvLog msg_attach_error]
  end.
Proof.
  apply events_of_app. unfold exec. rewrite attach_reader_spec.
  destruct (listener_verdict _ _); reflexivity.
Qed.

Lemma events_of_trigger_callback (w : world) :
  events_of shm_wakeup_trigger_callback w =
  match m_state (monitor w), call (m_wakeup_trigger_storage (monitor w)) with
  | SHM_MONITOR_RUNNING, Some f =>
      [EvCall f (arg (m_wakeup_trigger_storage (monitor w)))]
  | _, _ => []
  end.
Proof. apply events_of_app. unfold exec. rewrite trigger_callback_spec. reflexivity. Qed.

Lemma calls_in_app (l r : list event) : calls_in (l ++ r) = calls_in l ++ calls_in r.
Proof.
  induction l as [|e l IH]; simpl; [reflexivity|].
  destruct e; simpl; rewrite ?IH; reflexivity.
Qed.

Lemma deliver_firings_spec (n : nat) (w : world) :
  deliver_firings n w =
  (tt,
   {| monitor := monitor w;
      trace := trace w ++
        match m_state (monitor w), call (m_wakeup_trigger_storage (monitor w)) with
        | SHM_MONITOR_RUNNING, Some f =>
            repeat (EvCall f (arg (m_wakeup_trigger_storage (monitor w)))) n
        | _, _ => []
        end |}).
Proof.
  revert w. induction n as [|n IH]; intros w.
  - destruct w as [m tr]. simpl. unfold ret.
    destruct (m_state m); [|destruct (call _)]; rewrite app_nil_r; reflexivity.
  - simpl deliver_firings. unfold bind at 1. rewrite trigger_callback_spec.
    rewrite IH. simpl monitor. simpl trace.
    destruct (m_state (monitor w)); [rewrite app_nil_r; reflexivity|].
    destruct (call (m_wakeup_trigger_storage (monitor w)));
      [|rewrite app_nil_r; reflexivity].
    rewrite <- app_assoc. reflexivity.
Qed.

Lemma calls_in_repeat (f : fn_addr) (a : arg_addr) (n : nat) :
  calls_in (repeat (EvCall f a) n) = repeat (f, a) n.
Proof. induction n; simpl; congruence. Qed.

(** ** The wake-up callback *)

(** C9: the trigger callback invokes the stored payload only if the
    monitor's state is Running and the stored function pointer is not
    null, and then it invokes exactly that payload; a trigger fired by
    [shm_monitor_wake_and_enable] while the stored function pointer is
    null is delivered with the monitor Running and invokes nothing. *)
Theorem trigger_callback_needs_running_and_payload (w : world) :
  (forall f a,
      In (EvCall f a) (events_of shm_wakeup_trigger_callback w) ->
      m_state (monitor w) = SHM_MONITOR_RUNNING
      /\ call (m_wakeup_trigger_storage (monitor w)) = Some f
      /\ arg (m_wakeup_trigger_storage (monitor w)) = a)
  /\ (call (m_wakeup_trigger_storage (monitor w)) = None ->
      let w1 := exec shm_monitor_wake_and_enable w in
      m_state (monitor w1) = SHM_MONITOR_RUNNING
      /\ storage (m_wakeup_trigger_storage (monitor w1))
         = S (storage (m_wakeup_trigger_storage (monitor w)))
      /\ events_of (consume_firing ;; shm_wakeup_trigger_callback) w1 = []).
Proof.
  split.
  - intros f a. rewrite events_of_trigger_callback.
    destruct (m_state (monitor w)); [intros []|].
    destruct (call (m_wakeup_trigger_storage (monitor w))) as [g|]; [|intros []].
    intros [H|[]]. inversion H; subst. auto.
  - intros Hnull w1. subst w1. unfold exec. rewrite wake_and_enable_spec.
    simpl. repeat split.
    apply events_of_app. unfold exec, bind at 1, consume_firing, bind, get_monitor,
      put_monitor. rewrite trigger_callback_spec. simpl. rewrite Hnull.
    rewrite app_nil_r. reflexivity.
Qed.

Lemma trigger_callback_needs_running_and_payload_witness :
  let w := exec (shm_monitor_wake_and_invoke (Some 5%nat) 9%nat) (fresh_world 4) in
  (In (EvCall 5%nat 9%nat) (events_of shm_wakeup_trigger_callback w)
   /\ m_state (monitor w) = SHM_MONITOR_RUNNING)
  /\ call (m_wakeup_trigger_storage (monitor (fresh_world 4))) = None
  /\ events_of (consume_firing ;; shm_wakeup_trigger_callback)
       (exec shm_monitor_wake_and_enable (fresh_world 4)) = [].
Proof.
  intros w.
  assert (Hin : In (EvCall 5%nat 9%nat) (events_of shm_wakeup_trigger_callback w))
    by (left; reflexivity).
  split; [split; [exact Hin|]|split; [reflexivity|]].
  - exact (proj1 (proj1 (trigger_callback_needs_running_and_payload w) 5%nat 9%nat Hin)).
  - apply (proj2 (trigger_callback_needs_running_and_payload (fresh_world 4))).
    reflexivity.
Defined.

(** ** Wake and invoke *)

(** After [shm_monitor_wake_and_invoke (f, a)] with a function [f],
    each of any number [n] of firings that the callback observes while the
    payload is still [(f, a)] invokes [f (a)] once when the monitor is
    Running at that moment and not at all when it is NotRunning; the
    callback leaves the monitor, payload included, as it is. *)
Lemma deliveries_repeat_payload
  (f : fn_addr) (a : arg_addr) (w : world) (st : shm_monitor_states) (n : nat) :
  let w1 := world_with_state st (exec (shm_monitor_wake_and_invoke (Some f) a) w) in
  calls_in (events_of (deliver_firings n) w1) =
  match st with
  | SHM_MONITOR_RUNNING => repeat (f, a) n
  | SHM_MONITOR_NOT_RUNNING => []
  end
  /\ monitor (exec (deliver_firings n) w1) = monitor w1.
Proof.
  intros w1. subst w1. unfold exec at 2 3. rewrite wake_and_invoke_spec.
  split.
  - erewrite events_of_app; [|unfold exec; rewrite deliver_firings_spec; reflexivity].
    simpl. destruct st; [reflexivity|apply calls_in_repeat].
  - unfold exec. rewrite deliver_firings_spec. reflexivity.
Qed.


(** ** The lock *)

Lemma events_of_run_control_op (ct : c_int_type) (op : control_op) (w : world) :
  events_of (run_control_op ct op) w =
  match op with
  | CtlAttachReader r => events_of (shm_monitor_attach_reader ct r) w
  | CtlDetachReader r => events_of (shm_monitor_detach_reader ct r) w
  | CtlWakeAndInvoke f a => [EvWritePayload f a; EvTrigger]
  | CtlWakeAndDisable => [EvWriteState SHM_MONITOR_NOT_RUNNING; EvTrigger]
  | CtlWakeAndEnable => [EvWriteState SHM_MONITOR_RUNNING; EvTrigger]
  end.
Proof.
  destruct op; simpl run_control_op; auto using events_of_wake_and_invoke,
    events_of_wake_and_disable, events_of_wake_and_enable.
Qed.

Lemma run_control_op_keeps_lock (ct : c_int_type) (op : control_op) (w : world) :
  m_lock (monitor (exec (run_control_op ct op) w)) = m_lock (monitor w).
Proof.
  unfold exec. destruct op; simpl run_control_op.
  - rewrite attach_reader_spec. destruct (listener_verdict _ _); reflexivity.
  - rewrite detach_reader_spec. reflexivity.
  - rewrite wake_and_invoke_spec. reflexivity.
  - rewrite wake_and_disable_spec. reflexivity.
  - rewrite wake_and_enable_spec. reflexivity.
Qed.

(** C4, as the code has it: none of the control operations takes or
    releases the monitor's lock.  [shm_monitor_attach_reader] (when the
    listener accepts), [shm_monitor_detach_reader],
    [shm_monitor_wake_and_disable] and [shm_monitor_wake_and_enable] each
    perform their write of the count or of the run state with the lock in
    whatever state it had on entry, so the write is under the lock only if
    the caller already held it. *)
Theorem control_ops_never_take_lock (ct : c_int_type) (op : control_op) (w : world) :
  let es := events_of (run_control_op ct op) w in
  forallb (fun e => negb (is_lock_event e)) es = true
  /\ m_lock (monitor (exec (run_control_op ct op) w)) = m_lock (monitor w)
  /\ writes_under_lock (lock_held w) es
     = (lock_held w || negb (existsb is_guarded_write es))
  /\ existsb is_guarded_write es
     = match op with
       | CtlAttachReader r =>
           ListenerResult_eqb
             (listener_verdict (m_listener (monitor w)) (m_iox_sub r))
             ListenerResult_SUCCESS
       | CtlDetachReader _ | CtlWakeAndDisable | CtlWakeAndEnable => true
       | CtlWakeAndInvoke _ _ => false
       end.
Proof.
  intros es. subst es. rewrite events_of_run_control_op.
  split; [|split; [apply run_control_op_keeps_lock|]].
  - destruct op; try reflexivity.
    + rewrite events_of_attach_reader. destruct (listener_verdict _ _); reflexivity.
    + rewrite events_of_detach_reader. reflexivity.
  - destruct op.
    + rewrite events_of_attach_reader.
      destruct (listener_verdict _ _); destruct (lock_held w); split; reflexivity.
    + rewrite events_of_detach_reader. destruct (lock_held w); split; reflexivity.
    + destruct (lock_held w); split; reflexivity.
    + destruct (lock_held w); split; reflexivity.
    + destruct (lock_held w); split; reflexivity.
Qed.

(** C4, as stated, fails: on a freshly initialised monitor, whose lock
    nobody holds, each of the four operations writes the count or the run
    state outside the lock; an operation that brackets its write with the
    lock passes the same check. *)
Lemma control_ops_write_outside_lock :
  let w := fresh_world 4 in
  lock_held w = false
  /\ writes_under_lock (lock_held w)
       (events_of (shm_monitor_attach_reader uint32_t rd0) w) = false
  /\ writes_under_lock (lock_held w)
       (events_of (shm_monitor_detach_reader uint32_t rd0) w) = false
  /\ writes_under_lock (lock_held w) (events_of shm_monitor_wake_and_disable w) = false
  /\ writes_under_lock (lock_held w) (events_of shm_monitor_wake_and_enable w) = false
  /\ writes_under_lock (lock_held w) (events_of locked_disable w) = true.
Proof. vm_compute. repeat split. Qed.

(** ** Attach and detach *)

(** C7: [shm_monitor_attach_reader] returns DDS_RETCODE_OUT_OF_RESOURCES
    exactly when the listener refuses the registration; on that failure
    the monitor (count and registrations included) is what it was; on
    success the reader's subscriber is registered and the count is
    incremented by one (the [++] of the counter's type, which is [+ 1]
    whenever the count is below the type's maximum). *)
Theorem attach_reader_all_or_nothing (ct : c_int_type) (r : dds_reader) (w : world) :
  let verdict := listener_verdict (m_listener (monitor w)) (m_iox_sub r) in
  let result := eval (shm_monitor_attach_reader ct r) w in
  let m' := monitor (exec (shm_monitor_attach_reader ct r) w) in
  (result = DDS_RETCODE_OUT_OF_RESOURCES <-> verdict <> ListenerResult_SUCCESS)
  /\ (result = DDS_RETCODE_OUT_OF_RESOURCES -> m' = monitor w)
  /\ (result = DDS_RETCODE_OK ->
      l_subscribers (m_listener m')
      = l_subscribers (m_listener (monitor w)) ++ [m_iox_sub r]
      /\ m_number_of_attached_readers m'
         = ct_wrap ct (m_number_of_attached_readers (monitor w) + 1)
      /\ (ct_min ct <= m_number_of_attached_readers (monitor w) < ct_max ct ->
          m_number_of_attached_readers m'
          = m_number_of_attached_readers (monitor w) + 1)).
Proof.
  intros verdict result m'. subst verdict result m'.
  unfold eval, exec. rewrite attach_reader_spec.
  destruct (listener_verdict (m_listener (monitor w)) (m_iox_sub r)); simpl.
  - split; [split; [discriminate|congruence]|]. split; [discriminate|].
    intros _. repeat split. intros H. apply ct_wrap_in_range.
    unfold ct_in_range. lia.
  - split; [split; [discriminate|reflexivity]|]. split; [reflexivity|discriminate].
Qed.

Lemma attach_reader_all_or_nothing_witness :
  (eval (shm_monitor_attach_reader uint32_t rd0) (fresh_world 1)
   = DDS_RETCODE_OUT_OF_RESOURCES
   /\ monitor (exec (shm_monitor_attach_reader uint32_t rd0) (fresh_world 1))
      = monitor (fresh_world 1))
  /\ (eval (shm_monitor_attach_reader uint32_t rd0) (fresh_world 4) = DDS_RETCODE_OK
      /\ m_number_of_attached_readers
           (monitor (exec (shm_monitor_attach_reader uint32_t rd0) (fresh_world 4)))
         = m_number_of_attached_readers (monitor (fresh_world 4)) + 1).
Proof.
  split.
  - split; [reflexivity|].
    apply (proj1 (proj2 (attach_reader_all_or_nothing uint32_t rd0 (fresh_world 1)))).
    reflexivity.
  - split; [reflexivity|].
    apply (proj2 (proj2 (attach_reader_all_or_nothing uint32_t rd0 (fresh_world 4))));
      [reflexivity|].
    vm_compute. split; [discriminate|reflexivity].
Defined.

(** C10: [shm_monitor_attach_reader] and [shm_monitor_detach_reader] do
    not read the run state: with any other run state they return the same
    code and make the same changes.  In particular, with the monitor
    NotRunning, attach succeeds whenever the listener accepts and
    increments the count, and detach unregisters the subscriber,
    decrements the count and returns DDS_RETCODE_OK. *)
Theorem attach_detach_ignore_run_state
  (ct : c_int_type) (r : dds_reader) (w : world) (st : shm_monitor_states) :
  shm_monitor_attach_reader ct r (world_with_state st w)
  = (eval (shm_monitor_attach_reader ct r) w,
     world_with_state st (exec (shm_monitor_attach_reader ct r) w))
  /\ shm_monitor_detach_reader ct r (world_with_state st w)
     = (eval (shm_monitor_detach_reader ct r) w,
        world_with_state st (exec (shm_monitor_detach_reader ct r) w))
  /\ (m_state (monitor w) = SHM_MONITOR_NOT_RUNNING ->
      (listener_verdict (m_listener (monitor w)) (m_iox_sub r) = ListenerResult_SUCCESS ->
       eval (shm_monitor_attach_reader ct r) w = DDS_RETCODE_OK
       /\ m_number_of_attached_readers (monitor (exec (shm_monitor_attach_reader ct r) w))
          = ct_wrap ct (m_number_of_attached_readers (monitor w) + 1)
       /\ In (m_iox_sub r)
            (l_subscribers (m_listener (monitor (exec (shm_monitor_attach_reader ct r) w)))))
      /\ eval (shm_monitor_detach_reader ct r) w = DDS_RETCODE_OK
      /\ m_number_of_attached_readers (monitor (exec (shm_monitor_detach_reader ct r) w))
         = ct_wrap ct (m_number_of_attached_readers (monitor w) - 1)
      /\ ~ In (m_iox_sub r)
           (l_subscribers (m_listener (monitor (exec (shm_monitor_detach_reader ct r) w))))
      /\ m_state (monitor (exec (shm_monitor_detach_reader ct r) w))
         = SHM_MONITOR_NOT_RUNNING).
Proof.
  unfold eval, exec. rewrite !attach_reader_spec, !detach_reader_spec.
  split; [|split].
  - destruct w as [m tr]. simpl.
    destruct (listener_verdict (m_listener m) (m_iox_sub r)); reflexivity.
  - destruct w as [m tr]. reflexivity.
  - intros Hst. split.
    + intros ->. simpl. repeat split. apply in_or_app. right. left. reflexivity.
    + simpl. repeat split; [|assumption].
      rewrite filter_In. intros [_ H]. rewrite Nat.eqb_refl in H. discriminate.
Qed.

Lemma attach_detach_ignore_run_state_witness :
  let w := exec shm_monitor_wake_and_disable (fresh_world 4) in
  m_state (monitor w) = SHM_MONITOR_NOT_RUNNING
  /\ listener_verdict (m_listener (monitor w)) (m_iox_sub rd0) = ListenerResult_SUCCESS
  /\ eval (shm_monitor_attach_reader uint32_t rd0) w = DDS_RETCODE_OK
  /\ eval (shm_monitor_detach_reader uint32_t rd0) w = DDS_RETCODE_OK.
Proof.
  intros w.
  pose proof (proj2 (proj2 (attach_detach_ignore_run_state uint32_t rd0 w
                              SHM_MONITOR_NOT_RUNNING)) eq_refl) as [Hatt Hdet].
  split; [reflexivity|]. split; [reflexivity|].
  split; [exact (proj1 (Hatt eq_refl))|exact (proj1 Hdet)].
Defined.

(** ** The attached-reader count *)

Lemma init_keeps_count (capacity : nat) (w : world) :
  m_number_of_attached_readers (monitor (exec (shm_monitor_init capacity) w))
  = m_number_of_attached_readers (monitor w).
Proof. destruct w as [m tr]. reflexivity. Qed.

Lemma run_reader_call_count (ct : c_int_type) (c : reader_call) (w : world) :
  ct_in_range ct (m_number_of_attached_readers (monitor w)) ->
  m_number_of_attached_readers (monitor (snd (run_reader_call ct c w)))
  = ct_wrap ct (m_number_of_attached_readers (monitor w)
                + call_delta c (fst (run_reader_call ct c w))).
Proof.
  intros Hr. destruct c as [r|r]; simpl run_reader_call.
  - rewrite attach_reader_spec.
    destruct (listener_verdict _ _); simpl; try reflexivity;
      rewrite Z.add_0_r; symmetry; apply ct_wrap_in_range; assumption.
  - rewrite detach_reader_spec. simpl. reflexivity.
Qed.

Lemma run_reader_calls_count (ct : c_int_type) (cs : list reader_call) :
  forall w,
    ct_in_range ct (m_number_of_attached_readers (monitor w)) ->
    count_after ct cs w
    = ct_wrap ct (m_number_of_attached_readers (monitor w) + balance_after ct cs w).
Proof.
  unfold count_after, balance_after.
  induction cs as [|c cs IH]; intros w Hr.
  - simpl. rewrite Z.add_0_r. symmetry. apply ct_wrap_in_range. assumption.
  - simpl run_reader_calls.
    pose proof (run_reader_call_count c w Hr) as Hc.
    destruct (run_reader_call ct c w) as [r w'] eqn:Ecall. simpl in Hc.
    assert (Hr' : ct_in_range ct (m_number_of_attached_readers (monitor w')))
      by (rewrite Hc; apply ct_wrap_range).
    specialize (IH w' Hr').
    destruct (run_reader_calls ct cs w') as [w'' b]. simpl in IH |- *.
    rewrite IH, Hc, ct_wrap_add. f_equal. lia.
Qed.

(** C5, as the code has it: for every sequence of attach and detach
    calls on a monitor initialised over a zero count
    ([shm_monitor_init] does not assign the count), the count equals the
    number of successful attach calls minus the number of detach calls
    reduced into the range of the counter's type; whenever that difference
    lies between zero and the type's maximum, the count equals it and is
    not negative. *)
Theorem count_tracks_reader_calls
  (ct : c_int_type) (capacity : nat) (m0 : shm_monitor_t) (cs : list reader_call) :
  m_number_of_attached_readers m0 = 0 ->
  let w0 := exec (shm_monitor_init capacity) {| monitor := m0; trace := [] |} in
  count_after ct cs w0 = ct_wrap ct (balance_after ct cs w0)
  /\ (0 <= balance_after ct cs w0 <= ct_max ct ->
      count_after ct cs w0 = balance_after ct cs w0 /\ 0 <= count_after ct cs w0).
Proof.
  intros H0 w0.
  assert (Hc : m_number_of_attached_readers (monitor w0) = 0)
    by (subst w0; rewrite init_keeps_count; exact H0).
  assert (Hw : count_after ct cs w0 = ct_wrap ct (balance_after ct cs w0)).
  { rewrite run_reader_calls_count by (rewrite Hc; apply ct_zero_in_range).
    rewrite Hc. reflexivity. }
  split; [exact Hw|].
  intros Hb. rewrite Hw.
  rewrite ct_wrap_in_range; [lia|].
  pose proof (ct_zero_in_range ct) as Hz. unfold ct_in_range in *. lia.
Qed.

Lemma count_tracks_reader_calls_witness :
  let cs := [Attach rd0; Attach rd1; Detach rd0] in
  m_number_of_attached_readers zero_monitor = 0
  /\ 0 <= balance_after uint32_t cs (fresh_world 4) <= ct_max uint32_t
  /\ count_after uint32_t cs (fresh_world 4) = 1.
Proof.
  intros cs.
  assert (Hb : 0 <= balance_after uint32_t cs (fresh_world 4) <= ct_max uint32_t)
    by (vm_compute; split; discriminate).
  split; [reflexivity|]. split; [exact Hb|].
  pose proof (proj2 (count_tracks_reader_calls uint32_t 4 zero_monitor cs eq_refl) Hb)
    as [Heq _].
  unfold fresh_world. rewrite Heq. reflexivity.
Defined.

(** C5, as stated, fails: a detach call on a freshly initialised monitor
    with no reader attached leaves the count of a 32-bit unsigned counter
    at 4294967295, not at the difference -1; with a signed counter it
    leaves the count negative.  A refused attach followed by a detach of
    the same reader does the same. *)
Lemma detach_without_attach_breaks_count :
  balance_after uint32_t [Detach rd0] (fresh_world 4) = -1
  /\ count_after uint32_t [Detach rd0] (fresh_world 4) = 4294967295
  /\ count_after int32_t [Detach rd0] (fresh_world 4) = -1
  /\ balance_after uint32_t [Attach rd0; Detach rd0] (fresh_world 1) = -1
  /\ count_after uint32_t [Attach rd0; Detach rd0] (fresh_world 1) = 4294967295.
Proof. vm_compute. repeat split. Qed.

(** ** Teardown *)

Lemma destroy_spin_after_disable (w : world) :
  shm_monitor_destroy_step PcSpin (exec shm_monitor_wake_and_disable w)
  = (PcListenerDeinit, exec shm_monitor_wake_and_disable w).
Proof. unfold exec. rewrite wake_and_disable_spec. reflexivity. Qed.

(** Whatever the listener thread is doing, the thread that called
    [shm_monitor_destroy] passes the loop of line 47 at its first test and
    completes the teardown in four statements, none of which looks at the
    listener thread. *)
Lemma destroy_never_waits (ct : c_int_type) (s : system) :
  sys_destroy s = Some PcWakeAndDisable ->
  let s' := sys_run ct [RunDestroy; RunDestroy; RunDestroy; RunDestroy] s in
  sys_destroy s' = Some PcReturned
  /\ torn_down s' = true
  /\ sys_listener s' = sys_listener s.
Proof.
  intros Hpc. destruct s as [[m tr] lt pc]. simpl in Hpc. subst pc.
  repeat split.
Qed.

(** C1, evaluated on the code: a reader is attached, the listener thread
    enters the reception handler for it, and another thread calls
    [shm_monitor_destroy].  The destroying thread runs to completion
    without the listener thread taking a step: its only test of line 47
    reads the state it has just written, and the listener and the lock are
    torn down while the handler is still in flight. *)
Theorem destroy_tears_down_during_callback :
  let before := sys_run uint32_t
                  [Control (CtlAttachReader rd0); ListenerHasData 7%nat; CallDestroy]
                  (fresh_system 4) in
  let after := sys_run uint32_t [RunDestroy; RunDestroy; RunDestroy; RunDestroy] before in
  sys_listener before = LtInHandler 7%nat
  /\ sys_destroy before = Some PcWakeAndDisable
  /\ sys_destroy after = Some PcReturned
  /\ sys_listener after = LtInHandler 7%nat
  /\ quiescent after = false
  /\ torn_down after = true
  /\ events_of (shm_monitor_destroy 5) (sys_world before)
     = [EvWriteState SHM_MONITOR_NOT_RUNNING; EvTrigger; EvListenerDeinit; EvMutexDestroy].
Proof. vm_compute. repeat split. Qed.

(** ** The reception pipeline *)

(** A turn that finds a chunk: it takes it, leaves the rest of the queue,
    and ends at the bottom of the loop body or at [continue]. *)
Lemma drain_turn_chunk (rd : dds_reader) (chunk_var : option chunk) (s : rx_state)
  (c : chunk) (q : list chunk) :
  sub_queue s = c :: q ->
  drain_turn rd chunk_var s =
  Done (Continue, Some c,
        {| sub_queue := q;
           rhc := store_all rd (rhc s) (turn_stores rd c);
           rx_trace := rx_trace s ++ turn_events rd c |}).
Proof.
  intros Hq. destruct s as [q0 h tr]. simpl in Hq. subst q0.
  unfold drain_turn, iox_sub_take_chunk, turn_events, turn_stores, store_all,
    entidx_lookup_proxy_writer_guid, ddsi_tkmap_lookup_instance_ref.
  cbv beta iota zeta delta [rx_emit sub_queue rhc rx_trace ChunkReceiveResult_eqb negb].
  destruct (entity_index (e_gv rd) (guid (ice_hdr c))) as [pwr|].
  - fold (sample_of rd c).
    destruct (m_tkmap (e_gv rd) (sample_of rd c)) as [tk|].
    + cbv beta iota zeta delta [release ddsi_rhc_store rx_emit sub_queue rhc rx_trace
                                fold_left].
      destruct (m_rhc rd h _) as [stored content].
      cbv beta iota zeta delta [snd release rx_emit sub_queue rhc rx_trace].
      rewrite <- ?app_assoc; simpl app; reflexivity.
    + cbv beta iota zeta delta [release rx_emit sub_queue rhc rx_trace fold_left].
      rewrite <- ?app_assoc; simpl app; reflexivity.
  - rewrite <- ?app_assoc. simpl app. reflexivity.
Qed.

Lemma store_all_app (rd : dds_reader) (h : list rhc_entry) (a b : list rhc_entry) :
  store_all rd h (a ++ b) = store_all rd (store_all rd h a) b.
Proof. unfold store_all. apply fold_left_app. Qed.

(** A turn that finds the chunk source empty leaves the loop. *)
Lemma drain_turn_empty (rd : dds_reader) (chunk_var : option chunk) (s : rx_state) :
  sub_queue s = [] ->
  drain_turn rd chunk_var s = Done (Break, chunk_var, rx_emits last_turn_events s).
Proof.
  intros Hq. destruct s as [q0 h tr]. simpl in Hq. subst q0.
  unfold drain_turn, iox_sub_take_chunk, rx_emits, last_turn_events.
  cbv beta iota zeta delta [rx_emit sub_queue rhc rx_trace ChunkReceiveResult_eqb negb].
  rewrite <- ?app_assoc. reflexivity.
Qed.

Lemma drain_loop_spec (rd : dds_reader) (q : list chunk) :
  forall (fuel : nat) (chunk_var : option chunk) (s : rx_state),
    sub_queue s = q ->
    (List.length q < fuel)%nat ->
    drain_loop fuel rd chunk_var s =
    Done {| sub_queue := [];
            rhc := store_all rd (rhc s) (flat_map (turn_stores rd) q);
            rx_trace := rx_trace s ++ flat_map (turn_events rd) q ++ last_turn_events |}.
Proof.
  induction q as [|c q IH]; intros fuel chunk_var s Hq Hfuel.
  - destruct fuel as [|fuel]; [inversion Hfuel|].
    simpl drain_loop. rewrite drain_turn_empty by assumption.
    unfold rx_emits. simpl. rewrite Hq. reflexivity.
  - destruct fuel as [|fuel]; [inversion Hfuel|].
    simpl drain_loop. rewrite (drain_turn_chunk rd chunk_var s Hq).
    rewrite (IH fuel) by (simpl in *; auto; lia).
    cbn [flat_map rhc rx_trace]. rewrite store_all_app, <- !app_assoc. reflexivity.
Qed.

Lemma taken_chunks_app (l r : list event) :
  taken_chunks (l ++ r) = taken_chunks l ++ taken_chunks r.
Proof.
  induction l as [|e l IH]; simpl; [reflexivity|].
  destruct e; simpl; auto.
  destruct res; auto. destruct c; simpl; auto. rewrite IH. reflexivity.
Qed.

Lemma take_results_app (l r : list event) :
  take_results (l ++ r) = take_results l ++ take_results r.
Proof.
  induction l as [|e l IH]; simpl; [reflexivity|].
  destruct e; simpl; rewrite ?IH; reflexivity.
Qed.

Lemma taken_chunks_turn (rd : dds_reader) (c : chunk) :
  taken_chunks (turn_events rd c) = [c].
Proof.
  unfold turn_events.
  destruct (entity_index _ _); [destruct (m_tkmap _ _)|]; reflexivity.
Qed.

Lemma take_results_turn (rd : dds_reader) (c : chunk) :
  take_results (turn_events rd c) = [ChunkReceiveResult_SUCCESS].
Proof.
  unfold turn_events.
  destruct (entity_index _ _); [destruct (m_tkmap _ _)|]; reflexivity.
Qed.

Lemma taken_chunks_turns (rd : dds_reader) (q : list chunk) :
  taken_chunks (flat_map (turn_events rd) q) = q.
Proof.
  induction q as [|c q IH]; [reflexivity|].
  cbn [flat_map]. rewrite taken_chunks_app, taken_chunks_turn, IH. reflexivity.
Qed.

Lemma take_results_turns (rd : dds_reader) (q : list chunk) :
  take_results (flat_map (turn_events rd) q)
  = repeat ChunkReceiveResult_SUCCESS (List.length q).
Proof.
  induction q as [|c q IH]; [reflexivity|].
  cbn [flat_map]. rewrite take_results_app, take_results_turn, IH. reflexivity.
Qed.

(** C6: with K chunks waiting on the reader's chunk source and none
    arriving meanwhile, one run of [receive_data_wakeup_handler] returns
    after taking all K chunks, in order, each one processed by its own
    turn of the loop; the takes it performs are K successful ones followed
    by the single one that reports no data, on which the loop ends. *)
Theorem handler_drains_every_chunk (rd : dds_reader) (s : rx_state) (fuel : nat) :
  (List.length (sub_queue s) < fuel)%nat ->
  exists s' es,
    receive_data_wakeup_handler fuel rd s = Done s'
    /\ sub_queue s' = []
    /\ rx_trace s' = rx_trace s ++ es
    /\ es = [EvThreadAwake] ++ flat_map (turn_events rd) (sub_queue s)
            ++ last_turn_events ++ [EvThreadAsleep]
    /\ rhc s' = store_all rd (rhc s) (flat_map (turn_stores rd) (sub_queue s))
    /\ taken_chunks es = sub_queue s
    /\ take_results es
       = repeat ChunkReceiveResult_SUCCESS (List.length (sub_queue s))
         ++ [ChunkReceiveResult_NO_CHUNK_AVAILABLE].
Proof.
  intros Hfuel.
  unfold receive_data_wakeup_handler.
  rewrite (@drain_loop_spec rd (sub_queue s)) by (auto; reflexivity).
  eexists. eexists. split; [reflexivity|].
  split; [reflexivity|]. split.
  { simpl. rewrite <- !app_assoc. reflexivity. }
  split; [reflexivity|]. split; [reflexivity|]. split.
  - rewrite !taken_chunks_app, taken_chunks_turns.
    simpl. rewrite app_nil_r. reflexivity.
  - rewrite !take_results_app, take_results_turns.
    reflexivity.
Qed.

Lemma handler_drains_every_chunk_witness :
  (List.length (sub_queue (rx_start [chunk_known; chunk_unknown; chunk_known'])) < 4)%nat
  /\ exists s',
       receive_data_wakeup_handler 4 rd0
         (rx_start [chunk_known; chunk_unknown; chunk_known']) = Done s'
       /\ sub_queue s' = [].
Proof.
  assert (H : (List.length (sub_queue (rx_start [chunk_known; chunk_unknown; chunk_known']))
               < 4)%nat) by (simpl; lia).
  split; [exact H|].
  destruct (handler_drains_every_chunk rd0
              (rx_start [chunk_known; chunk_unknown; chunk_known']) H)
    as (s' & es & Hrun & Hq & _).
  exists s'. split; assumption.
Defined.

(** C8: when the instance lookup fails for the sample built on a chunk,
    the turn logs the failure, stores nothing in the history cache, drops
    its reference to the sample and goes on to the next turn; with enough
    turns left the loop then drains the remaining chunks as usual. *)
Theorem tk_lookup_failure_is_not_fatal
  (rd : dds_reader) (chunk_var : option chunk) (s : rx_state)
  (c : chunk) (q : list chunk) (pwr : proxy_writer) (fuel : nat) :
  sub_queue s = c :: q ->
  entity_index (e_gv rd) (guid (ice_hdr c)) = Some pwr ->
  m_tkmap (e_gv rd) (sample_of rd c) = None ->
  let d := sample_of rd c in
  let es := [EvShmMutexLock; EvTakeChunk ChunkReceiveResult_SUCCESS (Some c);
             EvShmMutexUnlock; EvSerdataFromIox c; EvTkmapLookupInstanceRef d None;
             EvLog msg_tk_failed; EvSerdataUnref d] in
  let s' := {| sub_queue := q; rhc := rhc s; rx_trace := rx_trace s ++ es |} in
  drain_turn rd chunk_var s = Done (Continue, Some c, s')
  /\ chunk_stored c es = false
  /\ chunk_released c es = true
  /\ drain_loop (S fuel) rd chunk_var s = drain_loop fuel rd (Some c) s'
  /\ ((List.length q < fuel)%nat ->
      drain_loop (S fuel) rd chunk_var s =
      Done {| sub_queue := [];
              rhc := store_all rd (rhc s) (flat_map (turn_stores rd) q);
              rx_trace := rx_trace s' ++ flat_map (turn_events rd) q
                          ++ last_turn_events |}).
Proof.
  intros Hq Hpwr Htk d es s'.
  assert (Hturn : drain_turn rd chunk_var s = Done (Continue, Some c, s')).
  { rewrite (drain_turn_chunk rd chunk_var s Hq).
    unfold turn_stores, turn_events. rewrite Hpwr, Htk.
    subst s' es d. reflexivity. }
  assert (Hloop : drain_loop (S fuel) rd chunk_var s = drain_loop fuel rd (Some c) s').
  { simpl drain_loop. rewrite Hturn. reflexivity. }
  split; [exact Hturn|]. split; [reflexivity|]. split.
  { subst es d. unfold chunk_released. simpl.
    unfold chunk_eqb. rewrite Nat.eqb_refl. reflexivity. }
  split; [exact Hloop|].
  intros Hfuel. rewrite Hloop.
  rewrite (@drain_loop_spec rd q fuel (Some c) s') by (auto; reflexivity).
  reflexivity.
Qed.

Lemma tk_lookup_failure_is_not_fatal_witness :
  let s := rx_start [chunk_no_instance; chunk_known] in
  sub_queue s = [chunk_no_instance; chunk_known]
  /\ entity_index (e_gv rd0) (guid (ice_hdr chunk_no_instance))
     = Some {| e_guid := 2; c_xqos := 20 |}
  /\ m_tkmap (e_gv rd0) (sample_of rd0 chunk_no_instance) = None
  /\ (List.length [chunk_known] < 2)%nat
  /\ exists s'', drain_loop 3 rd0 None s = Done s''
                 /\ List.length (rhc s'') = 1%nat.
Proof.
  intros s.
  assert (Hfuel : (List.length [chunk_known] < 2)%nat) by (simpl; lia).
  split; [reflexivity|]. split; [reflexivity|]. split; [reflexivity|].
  split; [exact Hfuel|].
  destruct (@tk_lookup_failure_is_not_fatal rd0 None s chunk_no_instance [chunk_known]
              {| e_guid := 2; c_xqos := 20 |} 2 eq_refl eq_refl eq_refl)
    as (_ & _ & _ & _ & Hrest).
  eexists. split; [exact (Hrest Hfuel)|reflexivity].
Defined.

(** C2, evaluated on the code: a drain over a chunk of an unknown writer
    followed by a chunk of a known one.  The first chunk is taken, nothing
    is stored for it and the loop goes on to the second chunk, but no
    event of the run gives the first chunk back: the [continue] of line
    114 leaves the turn before any release.  The second chunk is given
    back through the sample built on it. *)
Theorem unresolved_writer_chunk_is_not_released :
  exists s',
    receive_data_wakeup_handler 3 rd0 (rx_start [chunk_unknown; chunk_known]) = Done s'
    /\ taken_chunks (rx_trace s') = [chunk_unknown; chunk_known]
    /\ sub_queue s' = []
    /\ List.length (rhc s') = 1%nat
    /\ chunk_stored chunk_unknown (rx_trace s') = false
    /\ chunk_released chunk_unknown (rx_trace s') = false
    /\ chunk_stored chunk_known (rx_trace s') = true
    /\ chunk_released chunk_known (rx_trace s') = true
    /\ turn_events rd0 chunk_unknown
       = [EvShmMutexLock; EvTakeChunk ChunkReceiveResult_SUCCESS (Some chunk_unknown);
          EvShmMutexUnlock; EvLog msg_pwr_null].
Proof.
  eexists. split; [vm_compute; reflexivity|].
  vm_compute. repeat split.
Qed.

(* ================================================================== *)
(** * Further properties of the control operations *)

Lemma init_spec (capacity : nat) (w : world) :
  shm_monitor_init capacity w =
  (tt,
   {| monitor :=
        {| m_lock := MutexUnlocked;
           m_listener := {| l_alive := true; l_capacity := capacity;
                            l_user_trigger := true; l_subscribers := [] |};
           m_wakeup_trigger_storage :=
             {| storage := 0;
                call := call (m_wakeup_trigger_storage (monitor w));
                arg := arg (m_wakeup_trigger_storage (monitor w)) |};
           m_number_of_attached_readers := m_number_of_attached_readers (monitor w);
           m_state := SHM_MONITOR_RUNNING |};
      trace := trace w ++ [EvMutexInit; EvListenerInit; EvUserTriggerInit;
                           EvAttachUserTrigger; EvWriteState SHM_MONITOR_RUNNING] |}).
Proof.
  destruct w as [m tr].
  cbv [shm_monitor_init ddsrt_mutex_init iox_listener_init iox_user_trigger_init
       iox_listener_attach_user_trigger_event set_m_state bind ret get_monitor
       put_monitor emit monitor trace with_lock with_listener with_trigger with_state
       m_lock m_listener m_wakeup_trigger_storage m_number_of_attached_readers m_state
       l_alive l_capacity l_user_trigger l_subscribers storage call arg].
  rewrite <- !app_assoc. reflexivity.
Qed.

(** X1: [shm_monitor_init] makes the monitor Running with a fresh lock, a
    live listener that has only the wake-up trigger attached and no firing
    pending, but it assigns neither the count nor the payload slot: they
    keep what the memory held.  A function left in the slot is therefore
    invoked by the first firing delivered after a
    [shm_monitor_wake_and_enable], without any
    [shm_monitor_wake_and_invoke]; nothing is invoked when the slot held a
    null function. *)
Theorem init_keeps_payload_and_count
  (capacity : nat) (m0 : shm_monitor_t) (tr : list event) :
  let w := exec (shm_monitor_init capacity) {| monitor := m0; trace := tr |} in
  m_state (monitor w) = SHM_MONITOR_RUNNING
  /\ m_lock (monitor w) = MutexUnlocked
  /\ m_listener (monitor w)
     = {| l_alive := true; l_capacity := capacity;
          l_user_trigger := true; l_subscribers := [] |}
  /\ pending_firings (monitor w) = 0%nat
  /\ payload_of (monitor w) = payload_of m0
  /\ m_number_of_attached_readers (monitor w) = m_number_of_attached_readers m0
  /\ calls_in (events_of (shm_monitor_wake_and_enable ;; shm_wakeup_trigger_callback) w)
     = match call (m_wakeup_trigger_storage m0) with
       | Some f => [(f, arg (m_wakeup_trigger_storage m0))]
       | None => []
       end.
Proof.
  intros w. subst w. unfold exec at 1 2 3 4 5 6. rewrite init_spec.
  repeat (split; [reflexivity|]).
  erewrite events_of_app.
  2:{ unfold exec, bind. rewrite init_spec, wake_and_enable_spec, trigger_callback_spec.
      simpl. rewrite <- app_assoc. reflexivity. }
  destruct (call (m_wakeup_trigger_storage m0)); reflexivity.
Qed.

Lemma run_control_op_state (ct : c_int_type) (op : control_op) (w : world) :
  m_state (monitor (exec (run_control_op ct op) w))
  = state_written op (m_state (monitor w)).
Proof.
  unfold exec. destruct op; simpl run_control_op.
  - rewrite attach_reader_spec. destruct (listener_verdict _ _); reflexivity.
  - rewrite detach_reader_spec. reflexivity.
  - rewrite wake_and_invoke_spec. reflexivity.
  - rewrite wake_and_disable_spec. reflexivity.
  - rewrite wake_and_enable_spec. reflexivity.
Qed.

Lemma run_control_op_payload (ct : c_int_type) (op : control_op) (w : world) :
  payload_of (monitor (exec (run_control_op ct op) w))
  = payload_written op (payload_of (monitor w)).
Proof.
  unfold exec. destruct op; simpl run_control_op.
  - rewrite attach_reader_spec. destruct (listener_verdict _ _); reflexivity.
  - rewrite detach_reader_spec. reflexivity.
  - rewrite wake_and_invoke_spec. reflexivity.
  - rewrite wake_and_disable_spec. reflexivity.
  - rewrite wake_and_enable_spec. reflexivity.
Qed.

Lemma control_ops_last_write_wins_aux
  (ct : c_int_type) (ops : list control_op) (w : world) :
  m_state (monitor (run_control_ops ct ops w))
  = fold_left (fun st op => state_written op st) ops (m_state (monitor w))
  /\ payload_of (monitor (run_control_ops ct ops w))
     = fold_left (fun p op => payload_written op p) ops (payload_of (monitor w)).
Proof.
  unfold run_control_ops. revert w.
  induction ops as [|op ops IH]; intros w; [split; reflexivity|].
  simpl fold_left. destruct (IH (exec (run_control_op ct op) w)) as [Hst Hp].
  rewrite Hst, Hp, run_control_op_state, run_control_op_payload. split; reflexivity.
Qed.

(** X2: after any sequence of control operations, the run state is the
    one written by the last [shm_monitor_wake_and_disable] or
    [shm_monitor_wake_and_enable] of the sequence (the initial one when
    there is none), and the payload slot holds the pair of the last
    [shm_monitor_wake_and_invoke]: attach, detach and invoke never change
    the run state, and only invoke changes the payload. *)
Theorem control_ops_last_write_wins (ct : c_int_type) (ops : list control_op) (w : world) :
  m_state (monitor (run_control_ops ct ops w))
  = fold_left (fun st op => state_written op st) ops (m_state (monitor w))
  /\ payload_of (monitor (run_control_ops ct ops w))
     = fold_left (fun p op => payload_written op p) ops (payload_of (monitor w)).
Proof.
  destruct (control_ops_last_write_wins_aux ct ops w) as [Hst Hp].
  split; [exact Hst|exact Hp].
Qed.

Lemma run_control_op_frame (ct : c_int_type) (op : control_op) (w : world) :
  let w' := exec (run_control_op ct op) w in
  pending_firings (monitor w') = (pending_firings (monitor w) + firings_of op)%nat
  /\ calls_in (trace w') = calls_in (trace w)
  /\ l_alive (m_listener (monitor w')) = l_alive (m_listener (monitor w))
  /\ l_capacity (m_listener (monitor w')) = l_capacity (m_listener (monitor w))
  /\ l_user_trigger (m_listener (monitor w')) = l_user_trigger (m_listener (monitor w)).
Proof.
  unfold exec. destruct op; simpl run_control_op.
  - rewrite attach_reader_spec. destruct (listener_verdict _ _); simpl;
      rewrite calls_in_app, Nat.add_0_r; simpl; rewrite app_nil_r; repeat split.
  - rewrite detach_reader_spec. simpl.
    rewrite calls_in_app, Nat.add_0_r; simpl; rewrite app_nil_r; repeat split.
  - rewrite wake_and_invoke_spec. simpl. unfold pending_firings.
    rewrite calls_in_app, Nat.add_1_r; simpl; rewrite app_nil_r; repeat split.
  - rewrite wake_and_disable_spec. simpl. unfold pending_firings.
    rewrite calls_in_app, Nat.add_1_r; simpl; rewrite app_nil_r; repeat split.
  - rewrite wake_and_enable_spec. simpl. unfold pending_firings.
    rewrite calls_in_app, Nat.add_1_r; simpl; rewrite app_nil_r; repeat split.
Qed.

Lemma control_ops_frame_aux (ct : c_int_type) (ops : list control_op) (w : world) :
  let w' := run_control_ops ct ops w in
  pending_firings (monitor w')
  = (pending_firings (monitor w) + list_sum (map firings_of ops))%nat
  /\ calls_in (trace w') = calls_in (trace w)
  /\ l_alive (m_listener (monitor w')) = l_alive (m_listener (monitor w))
  /\ l_capacity (m_listener (monitor w')) = l_capacity (m_listener (monitor w))
  /\ l_user_trigger (m_listener (monitor w')) = l_user_trigger (m_listener (monitor w)).
Proof.
  unfold run_control_ops. revert w.
  induction ops as [|op ops IH]; intros w.
  - simpl. rewrite Nat.add_0_r. repeat split.
  - simpl fold_left. simpl map. simpl list_sum.
    destruct (IH (exec (run_control_op ct op) w)) as (H1 & H2 & H3 & H4 & H5).
    destruct (run_control_op_frame ct op w) as (F1 & F2 & F3 & F4 & F5).
    cbv zeta. rewrite H1, H2, H3, H4, H5, F1, F2, F3, F4, F5.
    repeat split. lia.
Qed.

(** X3: over any sequence of control operations, each wake operation
    (invoke, disable, enable) fires the wake-up trigger exactly once and
    attach and detach never fire it; no operation invokes the payload
    itself, that is left to the listener thread; and the listener stays as
    alive as it was, with the same capacity and the same attachment of the
    wake-up trigger. *)
Theorem control_ops_fire_once_and_never_call
  (ct : c_int_type) (ops : list control_op) (w : world) :
  let w' := run_control_ops ct ops w in
  pending_firings (monitor w')
  = (pending_firings (monitor w) + list_sum (map firings_of ops))%nat
  /\ calls_in (trace w') = calls_in (trace w)
  /\ l_alive (m_listener (monitor w')) = l_alive (m_listener (monitor w))
  /\ l_capacity (m_listener (monitor w')) = l_capacity (m_listener (monitor w))
  /\ l_user_trigger (m_listener (monitor w')) = l_user_trigger (m_listener (monitor w)).
Proof.
  intros w'. subst w'.
  destruct (control_ops_frame_aux ct ops w) as (H1 & H2 & H3 & H4 & H5).
  repeat split; assumption.
Qed.

Lemma filter_out_last (sub : iox_sub_t) (l : list iox_sub_t) :
  ~ In sub l ->
  filter (fun s => negb (Nat.eqb sub s)) (l ++ [sub]) = l.
Proof.
  induction l as [|x l IH]; intros Hn; simpl.
  - rewrite Nat.eqb_refl. reflexivity.
  - destruct (Nat.eqb_spec sub x) as [->|Hne].
    + exfalso. apply Hn. left. reflexivity.
    + simpl. rewrite IH; [reflexivity|]. intros H. apply Hn. right. exact H.
Qed.

Lemma filter_out_absent (sub : iox_sub_t) (l : list iox_sub_t) :
  ~ In sub l ->
  filter (fun s => negb (Nat.eqb sub s)) l = l.
Proof.
  induction l as [|x l IH]; intros Hn; simpl; [reflexivity|].
  destruct (Nat.eqb_spec sub x) as [->|Hne].
  - exfalso. apply Hn. left. reflexivity.
  - simpl. rewrite IH; [reflexivity|]. intros H. apply Hn. right. exact H.
Qed.

(** X4: attaching a reader that the listener accepts and that was not
    registered, and then detaching it, gives back the monitor as it was
    (registrations, count and everything else), provided the count was a
    value of the counter's type; both calls return DDS_RETCODE_OK. *)
Theorem attach_then_detach_restores_monitor
  (ct : c_int_type) (r : dds_reader) (w : world) :
  listener_verdict (m_listener (monitor w)) (m_iox_sub r) = ListenerResult_SUCCESS ->
  ~ In (m_iox_sub r) (l_subscribers (m_listener (monitor w))) ->
  ct_in_range ct (m_number_of_attached_readers (monitor w)) ->
  let w1 := exec (shm_monitor_attach_reader ct r) w in
  eval (shm_monitor_attach_reader ct r) w = DDS_RETCODE_OK
  /\ eval (shm_monitor_detach_reader ct r) w1 = DDS_RETCODE_OK
  /\ monitor (exec (shm_monitor_detach_reader ct r) w1) = monitor w.
Proof.
  intros Hv Hn Hr w1. subst w1. unfold eval, exec.
  rewrite attach_reader_spec, Hv. cbv beta iota. cbn [fst snd].
  rewrite detach_reader_spec. cbn [fst snd].
  split; [reflexivity|]. split; [reflexivity|].
  destruct w as [[lk [al cap ut subs] tg cnt st] tr]. simpl in *.
  unfold with_count, with_listener. simpl.
  rewrite (@filter_out_last _ _ Hn).
  replace (ct_wrap ct (cnt + 1) - 1) with (ct_wrap ct (cnt + 1) + -1) by lia.
  rewrite ct_wrap_add.
  replace (cnt + 1 + -1) with cnt by lia.
  rewrite (ct_wrap_in_range Hr). reflexivity.
Qed.

Lemma attach_then_detach_restores_monitor_witness :
  listener_verdict (m_listener (monitor (fresh_world 4))) (m_iox_sub rd0)
  = ListenerResult_SUCCESS
  /\ ct_in_range uint32_t (m_number_of_attached_readers (monitor (fresh_world 4)))
  /\ monitor (exec (shm_monitor_detach_reader uint32_t rd0)
                (exec (shm_monitor_attach_reader uint32_t rd0) (fresh_world 4)))
     = monitor (fresh_world 4).
Proof.
  assert (Hr : ct_in_range uint32_t
                 (m_number_of_attached_readers (monitor (fresh_world 4))))
    by (vm_compute; split; discriminate).
  split; [reflexivity|]. split; [exact Hr|].
  apply (@attach_then_detach_restores_monitor uint32_t rd0 (fresh_world 4));
    [reflexivity| |exact Hr].
  simpl. intros [].
Defined.

(** X5: [shm_monitor_detach_reader] does not check that the reader is
    attached: for a reader without a registration it leaves the listener
    as it is, still decrements the count (by one when the count is above
    the minimum of the counter's type) and returns DDS_RETCODE_OK. *)
Theorem detach_unregistered_reader_still_decrements
  (ct : c_int_type) (r : dds_reader) (w : world) :
  ~ In (m_iox_sub r) (l_subscribers (m_listener (monitor w))) ->
  let w' := exec (shm_monitor_detach_reader ct r) w in
  eval (shm_monitor_detach_reader ct r) w = DDS_RETCODE_OK
  /\ m_listener (monitor w') = m_listener (monitor w)
  /\ m_number_of_attached_readers (monitor w')
     = ct_wrap ct (m_number_of_attached_readers (monitor w) - 1)
  /\ (ct_min ct < m_number_of_attached_readers (monitor w) <= ct_max ct ->
      m_number_of_attached_readers (monitor w')
      = m_number_of_attached_readers (monitor w) - 1).
Proof.
  intros Hn w'. subst w'. unfold eval, exec. rewrite detach_reader_spec.
  cbn [fst snd]. split; [reflexivity|].
  destruct w as [[lk [al cap ut subs] tg cnt st] tr]. simpl in *.
  rewrite (@filter_out_absent _ _ Hn).
  split; [reflexivity|]. split; [reflexivity|].
  intros Hc. apply ct_wrap_in_range. unfold ct_in_range. lia.
Qed.

Lemma detach_unregistered_reader_still_decrements_witness :
  let w := exec (shm_monitor_attach_reader uint32_t rd0) (fresh_world 4) in
  ~ In (m_iox_sub rd1) (l_subscribers (m_listener (monitor w)))
  /\ m_number_of_attached_readers (monitor w) = 1
  /\ m_number_of_attached_readers
       (monitor (exec (shm_monitor_detach_reader uint32_t rd1) w)) = 1 - 1
  /\ l_subscribers (m_listener (monitor (exec (shm_monitor_detach_reader uint32_t rd1) w)))
     = [m_iox_sub rd0].
Proof.
  intros w.
  assert (Hn : ~ In (m_iox_sub rd1) (l_subscribers (m_listener (monitor w)))).
  { simpl. intros [H|[]]. discriminate H. }
  destruct (@detach_unregistered_reader_still_decrements uint32_t rd1 w Hn)
    as (_ & Hl & _ & Hc).
  split; [exact Hn|]. split; [reflexivity|]. split.
  - apply Hc. vm_compute. split; [reflexivity|discriminate].
  - rewrite Hl. reflexivity.
Defined.

Lemma destroy_spec (n : nat) (w : world) :
  shm_monitor_destroy (4 + n) w =
  (true,
   {| monitor :=
        {| m_lock := MutexDestroyed;
           m_listener := {| l_alive := false;
                            l_capacity := l_capacity (m_listener (monitor w));
                            l_user_trigger := false; l_subscribers := [] |};
           m_wakeup_trigger_storage :=
             {| storage := S (storage (m_wakeup_trigger_storage (monitor w)));
                call := call (m_wakeup_trigger_storage (monitor w));
                arg := arg (m_wakeup_trigger_storage (monitor w)) |};
           m_number_of_attached_readers := m_number_of_attached_readers (monitor w);
           m_state := SHM_MONITOR_NOT_RUNNING |};
      trace := trace w ++ [EvWriteState SHM_MONITOR_NOT_RUNNING; EvTrigger;
                           EvListenerDeinit; EvMutexDestroy] |}).
Proof.
  destruct w as [m tr]. destruct n;
  cbv [shm_monitor_destroy shm_monitor_destroy_from shm_monitor_destroy_step
       Nat.add shm_monitor_wake_and_disable set_m_state iox_user_trigger_trigger
       iox_listener_deinit ddsrt_mutex_destroy shm_monitor_states_eqb
       bind ret get_monitor put_monitor emit monitor trace
       with_lock with_listener with_trigger with_state
       m_lock m_listener m_wakeup_trigger_storage m_number_of_attached_readers m_state
       l_alive l_capacity l_user_trigger l_subscribers storage call arg];
  rewrite <- !app_assoc; reflexivity.
Qed.

(** X6: run by a thread on its own, [shm_monitor_destroy] returns after
    its four statements on every monitor, also one that is Running with
    readers attached: the loop of line 47 never takes a turn.  It leaves
    the monitor NotRunning with the listener deinitialised and the lock
    destroyed, fires the trigger once, and does not look at or change the
    count of attached readers. *)
Theorem destroy_returns_on_every_monitor (w : world) (fuel : nat) :
  (4 <= fuel)%nat ->
  let w' := exec (shm_monitor_destroy fuel) w in
  eval (shm_monitor_destroy fuel) w = true
  /\ events_of (shm_monitor_destroy fuel) w
     = [EvWriteState SHM_MONITOR_NOT_RUNNING; EvTrigger; EvListenerDeinit; EvMutexDestroy]
  /\ m_state (monitor w') = SHM_MONITOR_NOT_RUNNING
  /\ l_alive (m_listener (monitor w')) = false
  /\ m_lock (monitor w') = MutexDestroyed
  /\ pending_firings (monitor w') = S (pending_firings (monitor w))
  /\ m_number_of_attached_readers (monitor w')
     = m_number_of_attached_readers (monitor w).
Proof.
  intros Hfuel w'. subst w'.
  replace fuel with (4 + (fuel - 4))%nat by lia.
  split; [unfold eval; rewrite destroy_spec; reflexivity|].
  split; [apply events_of_app; unfold exec; rewrite destroy_spec; reflexivity|].
  unfold exec. rewrite destroy_spec. repeat split.
Qed.

Lemma destroy_returns_on_every_monitor_witness :
  let w := exec (shm_monitor_attach_reader uint32_t rd0) (fresh_world 4) in
  (4 <= 4)%nat
  /\ m_state (monitor w) = SHM_MONITOR_RUNNING
  /\ m_number_of_attached_readers (monitor w) = 1
  /\ eval (shm_monitor_destroy 4) w = true
  /\ m_number_of_attached_readers (monitor (exec (shm_monitor_destroy 4) w)) = 1.
Proof.
  intros w.
  destruct (@destroy_returns_on_every_monitor w 4 (le_n 4))
    as (Hret & _ & _ & _ & _ & _ & Hcount).
  split; [exact (le_n 4)|]. split; [reflexivity|]. split; [reflexivity|].
  split; [exact Hret|]. rewrite Hcount. reflexivity.
Defined.

(* ================================================================== *)
(** * Further properties of the reception pipeline *)

Lemma handler_spec (rd : dds_reader) (s : rx_state) (fuel : nat) :
  (List.length (sub_queue s) < fuel)%nat ->
  receive_data_wakeup_handler fuel rd s =
  Done {| sub_queue := [];
          rhc := store_all rd (rhc s) (flat_map (turn_stores rd) (sub_queue s));
          rx_trace := rx_trace s ++ handler_events rd (sub_queue s) |}.
Proof.
  intros Hfuel. unfold receive_data_wakeup_handler.
  rewrite (@drain_loop_spec rd (sub_queue s)) by (auto; reflexivity).
  unfold rx_emit, handler_events. simpl. rewrite <- !app_assoc. reflexivity.
Qed.

(** A run with enough turns returns, empties the chunk source, adds the
    events of its turns and leaves the history cache with what the cache
    made of the triples handed to it. *)
Lemma handler_returns (rd : dds_reader) (s : rx_state) (fuel : nat) :
  (List.length (sub_queue s) < fuel)%nat ->
  exists s',
    receive_data_wakeup_handler fuel rd s = Done s'
    /\ sub_queue s' = []
    /\ rhc s' = store_all rd (rhc s) (flat_map (turn_stores rd) (sub_queue s))
    /\ rx_events_since s s' = handler_events rd (sub_queue s).
Proof.
  intros Hfuel. rewrite (handler_spec rd s Hfuel). eexists. split; [reflexivity|].
  unfold rx_events_since. simpl.
  rewrite !skipn_length_app. repeat split.
Qed.

Lemma pick_app {A} (f : event -> option A) (l r : list event) :
  pick f (l ++ r) = pick f l ++ pick f r.
Proof.
  induction l as [|e l IH]; simpl; [reflexivity|].
  destruct (f e); simpl; rewrite IH; reflexivity.
Qed.

Lemma pick_flat_map {A B} (f : event -> option A) (g : B -> list event) (q : list B) :
  pick f (flat_map g q) = flat_map (fun c => pick f (g c)) q.
Proof.
  induction q as [|c q IH]; [reflexivity|].
  cbn [flat_map]. rewrite pick_app, IH. reflexivity.
Qed.

(** Readers that ignore the events around the turns see only the turns. *)
Lemma pick_handler_events {A} (f : event -> option A) (rd : dds_reader) (q : list chunk) :
  f EvThreadAwake = None ->
  f EvShmMutexLock = None ->
  f (EvTakeChunk ChunkReceiveResult_NO_CHUNK_AVAILABLE None) = None ->
  f EvShmMutexUnlock = None ->
  f EvThreadAsleep = None ->
  pick f (handler_events rd q) = flat_map (fun c => pick f (turn_events rd c)) q.
Proof.
  intros H1 H2 H3 H4 H5. unfold handler_events, last_turn_events.
  rewrite !pick_app, pick_flat_map. simpl. rewrite H1, H2, H3, H4, H5.
  simpl. rewrite app_nil_r. reflexivity.
Qed.

Lemma flat_map_filter {A} (p : A -> bool) (q : list A) :
  flat_map (fun c => if p c then [c] else []) q = filter p q.
Proof.
  induction q as [|c q IH]; [reflexivity|].
  simpl. destruct (p c); simpl; rewrite IH; reflexivity.
Qed.

Lemma flat_map_ext_list {A B} (f g : A -> list B) (q : list A) :
  (forall c, f c = g c) -> flat_map f q = flat_map g q.
Proof.
  intros H. induction q as [|c q IH]; [reflexivity|].
  simpl. rewrite H, IH. reflexivity.
Qed.

Lemma map_flat_map {A B C} (h : B -> C) (f : A -> list B) (q : list A) :
  map h (flat_map f q) = flat_map (fun c => map h (f c)) q.
Proof.
  induction q as [|c q IH]; [reflexivity|].
  simpl. rewrite map_app, IH. reflexivity.
Qed.

(** What the readers see of one turn. *)


Lemma turn_samples_dropped (rd : dds_reader) (c : chunk) :
  samples_dropped (turn_events rd c)
  = if writer_known rd c then [sample_of rd c] else [].
Proof.
  unfold turn_events, writer_known.
  destruct (entity_index _ _); [destruct (m_tkmap _ _)|]; reflexivity.
Qed.

Lemma turn_entries_stored (rd : dds_reader) (c : chunk) :
  entries_stored (turn_events rd c) = turn_stores rd c.
Proof.
  unfold turn_events, turn_stores.
  destruct (entity_index _ _); [destruct (m_tkmap _ _)|]; reflexivity.
Qed.



Lemma turn_released_directly (rd : dds_reader) (c : chunk) :
  chunks_released_directly (turn_events rd c) = [].
Proof.
  unfold turn_events.
  destruct (entity_index _ _); [destruct (m_tkmap _ _)|]; reflexivity.
Qed.

Lemma turn_logs (rd : dds_reader) (c : chunk) :
  logs_in (turn_events rd c) = skip_message rd c.
Proof.
  unfold turn_events, skip_message, storable, writer_known.
  destruct (entity_index _ _); [destruct (m_tkmap _ _)|]; reflexivity.
Qed.

Lemma turn_stores_chunks (rd : dds_reader) (c : chunk) :
  map entry_chunk (turn_stores rd c) = if storable rd c then [c] else [].
Proof.
  unfold turn_stores, storable, writer_known.
  destruct (entity_index _ _); [destruct (m_tkmap _ _)|]; reflexivity.
Qed.

Lemma shm_lock_discipline_app (l r : list event) :
  shm_lock_discipline false l = true ->
  shm_lock_discipline false (l ++ r) = shm_lock_discipline false r.
Proof.
  assert (H : forall held,
             shm_lock_discipline held l = true ->
             shm_lock_discipline held (l ++ r) = shm_lock_discipline false r).
  { induction l as [|e l IH]; intros held Hl.
    - simpl in *. destruct held; [discriminate|reflexivity].
    - destruct e; simpl in *; destruct held; simpl in *;
        try discriminate; auto. }
  apply H.
Qed.

Lemma turn_lock_discipline (rd : dds_reader) (c : chunk) :
  shm_lock_discipline false (turn_events rd c) = true.
Proof.
  unfold turn_events.
  destruct (entity_index _ _); [destruct (m_tkmap _ _)|]; reflexivity.
Qed.

Lemma turns_lock_discipline (rd : dds_reader) (q : list chunk) (r : list event) :
  shm_lock_discipline false (flat_map (turn_events rd) q ++ r)
  = shm_lock_discipline false r.
Proof.
  induction q as [|c q IH]; [reflexivity|].
  cbn [flat_map]. rewrite <- app_assoc.
  rewrite shm_lock_discipline_app by apply turn_lock_discipline. exact IH.
Qed.


Lemma entries_stored_handler (rd : dds_reader) (q : list chunk) :
  entries_stored (handler_events rd q) = flat_map (turn_stores rd) q.
Proof.
  unfold entries_stored. rewrite pick_handler_events by reflexivity.
  fold entries_stored. apply flat_map_ext_list. intros c.
  apply turn_entries_stored.
Qed.

Lemma taken_chunks_handler (rd : dds_reader) (q : list chunk) :
  taken_chunks (handler_events rd q) = q.
Proof.
  unfold handler_events. rewrite !taken_chunks_app, taken_chunks_turns.
  simpl. rewrite app_nil_r. reflexivity.
Qed.

(** X7: while the monitor is NotRunning the subscriber callback does
    nothing at all: after [shm_monitor_wake_and_disable] a HAS_DATA event
    takes no chunk, stores nothing and leaves the waiting chunks where
    they are.  They are not lost: the first HAS_DATA event after
    [shm_monitor_wake_and_enable] drains all of them. *)
Theorem disable_defers_the_drain
  (w : world) (rd : dds_reader) (s : rx_state) (fuel : nat) :
  (List.length (sub_queue s) < fuel)%nat ->
  let w1 := exec shm_monitor_wake_and_disable w in
  let w2 := exec shm_monitor_wake_and_enable w1 in
  shm_subscriber_callback fuel (m_state (monitor w1)) rd s = Done s
  /\ exists s',
       shm_subscriber_callback fuel (m_state (monitor w2)) rd s = Done s'
       /\ sub_queue s' = []
       /\ taken_chunks (rx_events_since s s') = sub_queue s.
Proof.
  intros Hfuel w1 w2. subst w2 w1. unfold exec.
  rewrite wake_and_disable_spec. cbn [snd]. rewrite wake_and_enable_spec.
  split; [reflexivity|].
  destruct (@handler_returns rd s fuel Hfuel) as (s' & Hrun & Hq & _ & Hev).
  exists s'. split; [exact Hrun|]. split; [exact Hq|].
  rewrite Hev. apply taken_chunks_handler.
Qed.

Lemma disable_defers_the_drain_witness :
  let s := rx_start four_chunks in
  (List.length (sub_queue s) < 5)%nat
  /\ shm_subscriber_callback 5
       (m_state (monitor (exec shm_monitor_wake_and_disable (fresh_world 4)))) rd0 s
     = Done s.
Proof.
  intros s.
  assert (H : (List.length (sub_queue s) < 5)%nat) by (simpl; lia).
  split; [exact H|].
  exact (proj1 (@disable_defers_the_drain (fresh_world 4) rd0 s 5 H)).
Defined.

(** X8: a HAS_DATA event that finds the chunk source empty costs one
    turn of the loop: the handler marks the thread awake, makes a single
    take under the mutex, which reports no chunk, marks the thread asleep
    and returns, with the history cache untouched. *)
Theorem handler_on_empty_source (rd : dds_reader) (s : rx_state) (fuel : nat) :
  sub_queue s = [] ->
  receive_data_wakeup_handler (S fuel) rd s =
  Done {| sub_queue := [];
          rhc := rhc s;
          rx_trace := rx_trace s ++
            [EvThreadAwake; EvShmMutexLock;
             EvTakeChunk ChunkReceiveResult_NO_CHUNK_AVAILABLE None;
             EvShmMutexUnlock; EvThreadAsleep] |}.
Proof.
  intros Hq. rewrite handler_spec by (rewrite Hq; simpl; lia).
  rewrite Hq. reflexivity.
Qed.

Lemma handler_on_empty_source_witness :
  sub_queue (rx_start []) = []
  /\ receive_data_wakeup_handler 1 rd0 (rx_start []) =
     Done {| sub_queue := []; rhc := [];
             rx_trace := [EvThreadAwake; EvShmMutexLock;
                          EvTakeChunk ChunkReceiveResult_NO_CHUNK_AVAILABLE None;
                          EvShmMutexUnlock; EvThreadAsleep] |}.
Proof.
  split; [reflexivity|].
  exact (@handler_on_empty_source rd0 (rx_start []) 0 eq_refl).
Defined.

(** X9: the handler holds the transport-wide mutex only around the
    take: in a run over any number of chunks the mutex is taken when free
    and released when held, every take happens under it, the lookups, the
    store and the releases all happen outside it, and the run ends with
    the mutex free. *)
Theorem handler_holds_mutex_only_for_take (rd : dds_reader) (s : rx_state) (fuel : nat) :
  (List.length (sub_queue s) < fuel)%nat ->
  exists s',
    receive_data_wakeup_handler fuel rd s = Done s'
    /\ shm_lock_discipline false (rx_events_since s s') = true
    /\ List.length (take_results (rx_events_since s s'))
       = S (List.length (sub_queue s)).
Proof.
  intros Hfuel.
  destruct (@handler_returns rd s fuel Hfuel) as (s' & Hrun & _ & _ & Hev).
  exists s'. split; [exact Hrun|]. rewrite Hev. unfold handler_events. split.
  - change ([EvThreadAwake] ++ ?l) with (EvThreadAwake :: l).
    cbn [shm_lock_discipline negb andb app].
    rewrite turns_lock_discipline. reflexivity.
  - rewrite !take_results_app, take_results_turns. simpl.
    rewrite length_app, repeat_length. simpl. lia.
Qed.

Lemma handler_holds_mutex_only_for_take_witness :
  (List.length (sub_queue (rx_start four_chunks)) < 5)%nat
  /\ exists s',
       receive_data_wakeup_handler 5 rd0 (rx_start four_chunks) = Done s'
       /\ shm_lock_discipline false (rx_events_since (rx_start four_chunks) s') = true.
Proof.
  assert (H : (List.length (sub_queue (rx_start four_chunks)) < 5)%nat)
    by (simpl; lia).
  split; [exact H|].
  destruct (@handler_holds_mutex_only_for_take rd0 (rx_start four_chunks) 5 H)
    as (s' & Hrun & Hd & _).
  exists s'. split; assumption.
Defined.



Lemma turn_stores_content (rd : dds_reader) (c : chunk) :
  Forall (fun e : rhc_entry =>
            let '(wi, d, tk) := e in
            d = sample_of rd c
            /\ timestamp d = tstamp (ice_hdr c)
            /\ m_tkmap (e_gv rd) d = Some tk
            /\ exists pwr,
                 entity_index (e_gv rd) (guid (ice_hdr c)) = Some pwr
                 /\ wi = ddsi_make_writer_info pwr (statusinfo d))
         (turn_stores rd c).
Proof.
  unfold turn_stores.
  destruct (entity_index (e_gv rd) (guid (ice_hdr c))) as [pwr|]; [|constructor].
  destruct (m_tkmap (e_gv rd) (sample_of rd c)) as [tk|] eqn:Etk; constructor;
    [|constructor].
  repeat split; [exact Etk|]. exists pwr. split; reflexivity.
Qed.

(** X11: the triples a run of the handler hands to [ddsi_rhc_store]
    are built, in arrival order, on exactly the chunks whose writer is in
    the entity index and for whose sample the instance lookup succeeds.
    Each triple carries the sample built on its chunk, stamped with the
    time stamp of the chunk's header, the token found for that sample,
    and the writer info made from the proxy writer that the header's
    identity resolves to.  The history cache is changed through these
    calls only: what it holds afterwards is what its own policy makes of
    them, in this order, whether or not it accepts them. *)
Theorem handler_stores_exactly_storable (rd : dds_reader) (s : rx_state) (fuel : nat) :
  (List.length (sub_queue s) < fuel)%nat ->
  exists s',
    receive_data_wakeup_handler fuel rd s = Done s'
    /\ let calls := entries_stored (rx_events_since s s') in
       map entry_chunk calls = filter (storable rd) (sub_queue s)
       /\ Forall (fun e : rhc_entry =>
                    let '(wi, d, tk) := e in
                    In (sd_chunk d) (sub_queue s)
                    /\ d = sample_of rd (sd_chunk d)
                    /\ timestamp d = tstamp (ice_hdr (sd_chunk d))
                    /\ m_tkmap (e_gv rd) d = Some tk
                    /\ exists pwr,
                         entity_index (e_gv rd) (guid (ice_hdr (sd_chunk d))) = Some pwr
                         /\ wi = ddsi_make_writer_info pwr (statusinfo d))
                 calls
       /\ rhc s' = store_all rd (rhc s) calls.
Proof.
  intros Hfuel.
  destruct (@handler_returns rd s fuel Hfuel) as (s' & Hrun & _ & Hrhc & Hev).
  exists s'. split; [exact Hrun|]. cbv zeta.
  rewrite Hev, entries_stored_handler. split; [|split; [|exact Hrhc]].
  - rewrite map_flat_map, <- flat_map_filter. apply flat_map_ext_list.
    intros c. apply turn_stores_chunks.
  - apply Forall_forall. intros [[wi d] tk] Hin.
    apply in_flat_map in Hin. destruct Hin as (c & Hc & Hin).
    pose proof (turn_stores_content rd c) as Hall.
    rewrite Forall_forall in Hall. specialize (Hall _ Hin). cbv beta iota in Hall.
    destruct Hall as (Hd & Hts & Htk & pwr & Hpwr & Hwi).
    assert (Hch : sd_chunk d = c) by (rewrite Hd; reflexivity).
    rewrite Hch. repeat split; try assumption.
    exists pwr. split; assumption.
Qed.

Lemma handler_stores_exactly_storable_witness :
  (List.length (sub_queue (rx_start four_chunks)) < 5)%nat
  /\ exists s',
       receive_data_wakeup_handler 5 rd_small_cache (rx_start four_chunks) = Done s'
       /\ map entry_chunk (entries_stored (rx_events_since (rx_start four_chunks) s'))
          = [chunk_known; chunk_known']
       /\ map entry_chunk (rhc s') = [chunk_known].
Proof.
  assert (H : (List.length (sub_queue (rx_start four_chunks)) < 5)%nat)
    by (simpl; lia).
  split; [exact H|].
  destruct (@handler_stores_exactly_storable rd_small_cache (rx_start four_chunks) 5 H)
    as (s' & Hrun & Hch & _ & Hrhc).
  exists s'. split; [exact Hrun|]. split; [rewrite Hch; reflexivity|].
  assert (Hcalls : entries_stored (rx_events_since (rx_start four_chunks) s')
                   = flat_map (turn_stores rd_small_cache) four_chunks).
  { rewrite (handler_spec rd_small_cache (rx_start four_chunks) H) in Hrun.
    injection Hrun as <-. unfold rx_events_since. simpl skipn.
    apply entries_stored_handler. }
  rewrite Hrhc, Hcalls. reflexivity.
Defined.

(** X12: a run of the handler takes every waiting chunk, and the chunks
    it gives back, through the sample built on them, are in order exactly
    those whose writer is in the entity index (whether or not the
    instance lookup succeeds); it never calls [iox_sub_release_chunk], so
    a chunk of an unknown writer is taken and not given back. *)
Theorem handler_gives_back_known_writer_chunks
  (rd : dds_reader) (s : rx_state) (fuel : nat) :
  (List.length (sub_queue s) < fuel)%nat ->
  exists s',
    receive_data_wakeup_handler fuel rd s = Done s'
    /\ let es := rx_events_since s s' in
       taken_chunks es = sub_queue s
       /\ map sd_chunk (samples_dropped es) = filter (writer_known rd) (sub_queue s)
       /\ chunks_released_directly es = [].
Proof.
  intros Hfuel.
  destruct (@handler_returns rd s fuel Hfuel) as (s' & Hrun & _ & _ & Hev).
  exists s'. split; [exact Hrun|]. cbv zeta. rewrite Hev.
  split; [apply taken_chunks_handler|].
  unfold samples_dropped, chunks_released_directly.
  rewrite !pick_handler_events by reflexivity.
  fold samples_dropped chunks_released_directly. split.
  - rewrite map_flat_map, <- flat_map_filter. apply flat_map_ext_list. intros c.
    rewrite turn_samples_dropped. destruct (writer_known rd c); reflexivity.
  - generalize (sub_queue s). intros q.
    induction q as [|c q IH]; [reflexivity|].
    cbn [flat_map]. rewrite turn_released_directly. exact IH.
Qed.

Lemma handler_gives_back_known_writer_chunks_witness :
  (List.length (sub_queue (rx_start four_chunks)) < 5)%nat
  /\ exists s',
       receive_data_wakeup_handler 5 rd0 (rx_start four_chunks) = Done s'
       /\ taken_chunks (rx_events_since (rx_start four_chunks) s') = four_chunks
       /\ map sd_chunk (samples_dropped (rx_events_since (rx_start four_chunks) s'))
          = [chunk_known; chunk_no_instance; chunk_known'].
Proof.
  assert (H : (List.length (sub_queue (rx_start four_chunks)) < 5)%nat)
    by (simpl; lia).
  split; [exact H|].
  destruct (@handler_gives_back_known_writer_chunks rd0 (rx_start four_chunks) 5 H)
    as (s' & Hrun & Htaken & Hback & _).
  exists s'. split; [exact Hrun|]. split; [exact Htaken|].
  rewrite Hback. reflexivity.
Defined.

(** X13: the handler logs once for every chunk it does not store and
    never for one it stores: the messages of a run are, in arrival order,
    "pwr is NULL and we'll ignore." for each chunk of an unknown writer
    and "ddsi_tkmap_lookup_instance_ref failed." for each chunk whose
    instance lookup fails. *)
Theorem handler_logs_every_skipped_chunk (rd : dds_reader) (s : rx_state) (fuel : nat) :
  (List.length (sub_queue s) < fuel)%nat ->
  exists s',
    receive_data_wakeup_handler fuel rd s = Done s'
    /\ logs_in (rx_events_since s s') = flat_map (skip_message rd) (sub_queue s).
Proof.
  intros Hfuel.
  destruct (@handler_returns rd s fuel Hfuel) as (s' & Hrun & _ & _ & Hev).
  exists s'. split; [exact Hrun|]. rewrite Hev.
  unfold logs_in. rewrite pick_handler_events by reflexivity. fold logs_in.
  apply flat_map_ext_list. intros c. apply turn_logs.
Qed.

Lemma handler_logs_every_skipped_chunk_witness :
  (List.length (sub_queue (rx_start four_chunks)) < 5)%nat
  /\ exists s',
       receive_data_wakeup_handler 5 rd0 (rx_start four_chunks) = Done s'
       /\ logs_in (rx_events_since (rx_start four_chunks) s')
          = [msg_pwr_null; msg_tk_failed].
Proof.
  assert (H : (List.length (sub_queue (rx_start four_chunks)) < 5)%nat)
    by (simpl; lia).
  split; [exact H|].
  destruct (@handler_logs_every_skipped_chunk rd0 (rx_start four_chunks) 5 H)
    as (s' & Hrun & Hlogs).
  exists s'. split; [exact Hrun|]. rewrite Hlogs. reflexivity.
Defined.

(** X14: draining in two runs stores the same as draining in one.  When
    the handler has drained the chunks that were waiting and further
    chunks arrive afterwards, a second run leaves the history cache as a
    single run over all of the chunks would, and the chunks taken over
    the two runs are those the single run takes. *)
Theorem handler_drain_splits
  (rd : dds_reader) (s : rx_state) (q2 : list chunk) (fuel : nat) :
  (List.length (sub_queue s) + List.length q2 < fuel)%nat ->
  exists s1 s2 s12,
    receive_data_wakeup_handler fuel rd s = Done s1
    /\ receive_data_wakeup_handler fuel rd (enqueue q2 s1) = Done s2
    /\ receive_data_wakeup_handler fuel rd (enqueue q2 s) = Done s12
    /\ rhc s2 = rhc s12
    /\ sub_queue s2 = [] /\ sub_queue s12 = []
    /\ taken_chunks (rx_events_since s s2) = taken_chunks (rx_events_since s s12).
Proof.
  intros Hfuel.
  rewrite (handler_spec rd s) by lia.
  eexists. eexists. eexists. split; [reflexivity|].
  rewrite handler_spec by (simpl; lia).
  split; [reflexivity|].
  rewrite handler_spec by (simpl; rewrite length_app; lia).
  split; [reflexivity|]. simpl.
  split; [rewrite flat_map_app, store_all_app; reflexivity|].
  split; [reflexivity|]. split; [reflexivity|].
  unfold rx_events_since. simpl.
  rewrite <- app_assoc, !skipn_length_app.
  rewrite taken_chunks_app, !taken_chunks_handler. reflexivity.
Qed.

Lemma handler_drain_splits_witness :
  let s := rx_start [chunk_known; chunk_unknown] in
  let q2 := [chunk_no_instance; chunk_known'] in
  (List.length (sub_queue s) + List.length q2 < 5)%nat
  /\ exists s1 s2 s12,
       receive_data_wakeup_handler 5 rd0 s = Done s1
       /\ receive_data_wakeup_handler 5 rd0 (enqueue q2 s1) = Done s2
       /\ receive_data_wakeup_handler 5 rd0 (enqueue q2 s) = Done s12
       /\ rhc s2 = rhc s12.
Proof.
  intros s q2.
  assert (H : (List.length (sub_queue s) + List.length q2 < 5)%nat) by (simpl; lia).
  split; [exact H|].
  destruct (@handler_drain_splits rd0 s q2 5 H)
    as (s1 & s2 & s12 & H1 & H2 & H12 & Hrhc & _).
  exists s1, s2, s12. repeat split; assumption.
Defined.

(* ================================================================== *)
(** * Disarming the wake-up trigger *)

Lemma payload_kept_without_invoke (ops : list control_op) (p : option fn_addr * arg_addr) :
  forallb (fun op => negb (is_wake_and_invoke op)) ops = true ->
  fold_left (fun p op => payload_written op p) ops p = p.
Proof.
  revert p. induction ops as [|op ops IH]; intros p H; [reflexivity|].
  simpl in H. apply andb_prop in H. destruct H as [Hop Hops].
  simpl. rewrite IH by exact Hops.
  destruct op; try reflexivity. discriminate Hop.
Qed.

(** X15: [shm_monitor_wake_and_invoke] with a null function disarms the
    trigger: it fires it once, and from then on, whatever attach, detach,
    disable and enable calls follow, no firing delivered to the callback
    invokes anything, until a later [shm_monitor_wake_and_invoke] stores a
    function again. *)
Theorem wake_and_invoke_null_disarms
  (ct : c_int_type) (a : arg_addr) (ops : list control_op) (n : nat) (w : world) :
  forallb (fun op => negb (is_wake_and_invoke op)) ops = true ->
  let w1 := exec (shm_monitor_wake_and_invoke None a) w in
  let w2 := run_control_ops ct ops w1 in
  pending_firings (monitor w1) = S (pending_firings (monitor w))
  /\ payload_of (monitor w2) = (None, a)
  /\ events_of (deliver_firings n) w2 = [].
Proof.
  intros Hops w1 w2.
  assert (Hp : payload_of (monitor w2) = (None, a)).
  { subst w2. rewrite (proj2 (control_ops_last_write_wins_aux ct ops w1)).
    rewrite payload_kept_without_invoke by exact Hops.
    subst w1. unfold exec. rewrite wake_and_invoke_spec. reflexivity. }
  split; [subst w1; unfold exec; rewrite wake_and_invoke_spec; reflexivity|].
  split; [exact Hp|].
  apply events_of_app. unfold exec. rewrite deliver_firings_spec.
  unfold payload_of in Hp. injection Hp as Hcall _. rewrite Hcall. simpl.
  destruct (m_state (monitor w2)); reflexivity.
Qed.

Lemma wake_and_invoke_null_disarms_witness :
  let ops := [CtlWakeAndDisable; CtlAttachReader rd0; CtlWakeAndEnable] in
  let w := exec (shm_monitor_wake_and_invoke (Some 5%nat) 9%nat) (fresh_world 4) in
  forallb (fun op => negb (is_wake_and_invoke op)) ops = true
  /\ calls_in (events_of (deliver_firings 1) (run_control_ops uint32_t ops w))
     = [(5%nat, 9%nat)]
  /\ events_of (deliver_firings 3)
       (run_control_ops uint32_t ops (exec (shm_monitor_wake_and_invoke None 0%nat) w))
     = [].
Proof.
  intros ops w.
  split; [reflexivity|]. split; [reflexivity|].
  exact (proj2 (proj2 (@wake_and_invoke_null_disarms uint32_t 0%nat ops 3 w eq_refl))).
Defined.

(* ================================================================== *)
(** * Wake and invoke, from the call to the invocation *)




